(** * tsdoc-to-markdown: the extractor and the Markdown renderer

    A shallow embedding of the two source files of the repository:

    - the extractor ([serializeSymbol], [serializeClass], [serializeSignature],
      [isNodeExportedOrPublic], [findDescendantArrowFunction], [visit],
      [generateDocumentation]), which walks the syntax trees handed out by the
      TypeScript compiler and asks its type checker about symbols;
    - the renderer ([toMarkdown], [classesToMarkdown],
      [documentationToMarkdown]), which turns documentation entries into one
      Markdown string.

    The TypeScript compiler is an external collaborator.  Its syntax trees,
    symbols and signatures are plain data here, its type checker is a record
    of functions ([TypeChecker]) and what the source imports from the
    [typescript] module is the class [TypeScript].  A JavaScript exception is
    a value of [result]: [Throw] propagates through every caller because the
    source holds no [try]. *)

From Stdlib Require Import List String Ascii ZArith Bool Lia.
Import ListNotations.

#[local] Set Warnings "-register-all".
#[local] Open Scope string_scope.

(** ** JavaScript values used by both files *)

(** The line feed written [\n] in the source's template literals. *)
Definition LF : string := String "010"%char EmptyString.

(** The one-character string holding a backtick. *)
Definition BT : string := String "096"%char EmptyString.

(** [array.join(sep)]. *)
Definition join (sep : string) (array : list string) : string :=
  String.concat sep array.

(** [value ?? fallback]. *)
Definition nullish {A : Type} (value : option A) (fallback : A) : A :=
  match value with
  | Some v => v
  | None => fallback
  end.

(** A possibly absent string interpolated in a template literal: [undefined]
    is written out as the word. *)
Definition interpolate (value : option string) : string :=
  match value with
  | Some s => s
  | None => "undefined"
  end.

(** A possibly absent object used as a condition. *)
Definition isDefined {A : Type} (value : option A) : bool :=
  match value with
  | Some _ => true
  | None => false
  end.

(** [array.length] and [string.length] used as a condition. *)
Definition nonEmpty {A : Type} (array : list A) : bool :=
  match array with
  | [] => false
  | _ :: _ => true
  end.

(** The operator [&]: both operands are converted to signed 32-bit integers,
    then combined bit by bit. *)
Definition ToInt32 (z : Z) : Z := ((z + 2 ^ 31) mod 2 ^ 32 - 2 ^ 31)%Z.

Definition bitwiseAnd (a b : Z) : Z := Z.land (ToInt32 a) (ToInt32 b).

(** [array.push(...items)]: the array after the call. *)
Definition push {A : Type} (array items : list A) : list A :=
  (array ++ items)%list.

Definition nonEmptyString (s : string) : bool :=
  negb (Nat.eqb (String.length s) 0).

(** ** The data model: [DocEntry] *)

Record SymbolDisplayPart : Type := mkSymbolDisplayPart {
  part_text : string;
  part_kind : string
}.

Record JSDocTagInfo : Type := mkJSDocTagInfo {
  tag_name : string;
  tag_text : option (list SymbolDisplayPart)
}.

(** [DocEntry], one optional field per optional property; [None] is an absent
    key.  [SignatureEntry] is
    [Pick<DocEntry, 'parameters' | 'returnType' | 'documentation'>].
    [doc_type] is the property the renderer destructures; the interface of
    the extractor does not declare it. *)
Inductive DocEntry : Type := mkDocEntry {
  name : string;
  fileName : option string;
  documentation : option string;
  type : option string;
  constructors : option (list SignatureEntry);
  parameters : option (list DocEntry);
  methods : option (list DocEntry);
  returnType : option string;
  jsDocs : option (list JSDocTagInfo);
  doc_type : option string
}
with SignatureEntry : Type := mkSignatureEntry {
  sig_parameters : option (list DocEntry);
  sig_returnType : option string;
  sig_documentation : option string
}.

(** Object spreads and property assignments of the source. *)
Definition with_constructors (e : DocEntry) (v : option (list SignatureEntry)) : DocEntry :=
  mkDocEntry (name e) (fileName e) (documentation e) (type e) v
    (parameters e) (methods e) (returnType e) (jsDocs e) (doc_type e).

Definition with_methods (e : DocEntry) (v : option (list DocEntry)) : DocEntry :=
  mkDocEntry (name e) (fileName e) (documentation e) (type e) (constructors e)
    (parameters e) v (returnType e) (jsDocs e) (doc_type e).

Definition with_fileName (e : DocEntry) (v : option string) : DocEntry :=
  mkDocEntry (name e) v (documentation e) (type e) (constructors e)
    (parameters e) (methods e) (returnType e) (jsDocs e) (doc_type e).

(** An entry with no [doc_type] property. *)
Definition untagged (entry : DocEntry) : Prop := doc_type entry = None.

(** ** The renderer (markdown.ts) *)

Module Markdown.

(** The local type [Row] of [toMarkdown]. *)
Record Param : Type := mkParam {
  param_name : string;
  param_documentation : string
}.

Record Row : Type := mkRow {
  row_name : string;
  row_type : string;
  row_documentation : string;
  row_params : list Param
}.

(** The mapping of [entries] to [rows]. *)
Definition toRow (entry : DocEntry) : Row :=
  {| row_name := name entry;
     row_type := nullish (type entry) "";
     row_documentation := nullish (documentation entry) "";
     row_params :=
       map (fun p => {| param_name := name p;
                        param_documentation := nullish (documentation p) "" |})
           (nullish (parameters entry) []) |}.

Definition paramToMarkdown (p : Param) : string :=
  "* " ++ BT ++ param_name p ++ BT ++ ": " ++ param_documentation p.

(** [rowToMarkdown]: the array [markdown] grows by [push], then is joined. *)
Definition rowToMarkdown (row : Row) : string :=
  let markdown := ["## " ++ row_name row ++ LF] in
  let markdown :=
    if nonEmptyString (row_documentation row)
    then push markdown [row_documentation row ++ LF]
    else markdown in
  let markdown := push markdown ["| Name | Type |"] in
  let markdown := push markdown ["| ---------- | ---------- |"] in
  let markdown :=
    push markdown ["| " ++ BT ++ row_name row ++ BT ++ " | "
                        ++ BT ++ row_type row ++ BT ++ " |" ++ LF] in
  let markdown :=
    if nonEmpty (row_params row)
    then push (push markdown ["Parameters:"])
              (map paramToMarkdown (row_params row))
    else markdown in
  join LF markdown.

Definition toMarkdown (entries : list DocEntry) : string :=
  let rows := map toRow entries in
  join LF (map rowToMarkdown rows).

Definition classesToMarkdown (entry : DocEntry) : string :=
  let markdown := ["# " ++ name entry ++ LF] in
  let markdown := push markdown [interpolate (documentation entry) ++ LF] in
  let markdown := push markdown [toMarkdown (nullish (methods entry) []) ++ LF] in
  join LF markdown.

(** [doc_type === 'function'] and its two siblings. *)
Definition doc_type_is (tag : string) (entry : DocEntry) : bool :=
  match doc_type entry with
  | Some t => String.eqb t tag
  | None => false
  end.

Definition documentationToMarkdown (entries : list DocEntry) : string :=
  let functions := filter (doc_type_is "function") entries in
  let classes := filter (doc_type_is "class") entries in
  let consts := filter (doc_type_is "const") entries in
  let markdown := [] in
  let markdown :=
    if nonEmpty functions
    then push (push markdown ["# Functions" ++ LF]) [toMarkdown functions ++ LF]
    else markdown in
  let markdown :=
    if nonEmpty consts
    then push (push markdown ["# Constants" ++ LF]) [toMarkdown consts ++ LF]
    else markdown in
  let markdown := push markdown [join LF (map classesToMarkdown classes)] in
  join LF markdown.

End Markdown.

(** ** Exceptions *)

(** What a JavaScript call can end in: a value, or a thrown exception.
    [TypeError] is the engine's own (a property read on [undefined]);
    [CheckerError] is whatever the type checker throws. *)
Inductive exn : Type :=
| TypeError
| CheckerError.

Inductive result (A : Type) : Type :=
| Ok (value : A)
| Throw (e : exn).

Arguments Ok {A} value.
Arguments Throw {A} e.

Definition bind {A B : Type} (c : result A) (k : A -> result B) : result B :=
  match c with
  | Ok a => k a
  | Throw e => Throw e
  end.

Declare Scope result_scope.
Delimit Scope result_scope with result.
Notation "x <- c ;; k" := (bind c (fun x => k))
  (at level 61, c at next level, right associativity) : result_scope.
#[local] Open Scope result_scope.

(** [array.map(f)] where [f] can throw: the first exception ends the call. *)
Definition mapM {A B : Type} (f : A -> result B) : list A -> result (list B) :=
  fix go (array : list A) : result (list B) :=
    match array with
    | [] => Ok []
    | a :: rest =>
        b <- f a ;;
        bs <- go rest ;;
        Ok (b :: bs)
    end.

(** A loop whose body updates one accumulator and can throw: [for ... of]
    and [forEachChild] with a callback that returns nothing. *)
Definition forEachM {A S : Type} (body : A -> S -> result S) : list A -> S -> result S :=
  fix go (items : list A) (acc : S) : result S :=
    match items with
    | [] => Ok acc
    | a :: rest =>
        acc' <- body a acc ;;
        go rest acc'
    end.

(** [forEachChild] with a callback that returns a value: the first defined
    result stops the iteration and is returned. *)
Definition firstDefined {A T : Type} (cb : A -> option T) : list A -> option T :=
  fix go (items : list A) : option T :=
    match items with
    | [] => None
    | a :: rest =>
        match cb a with
        | Some r => Some r
        | None => go rest
        end
    end.

(** ** The compiler's data: nodes, symbols, signatures, the checker *)

(** The identity of a syntax node, which is what the checker is asked about. *)
Definition Location : Type := nat.

(** A resolved type, as the checker hands it out. *)
Definition TsType : Type := nat.

(** The kinds [visit] tells apart; every other kind is [OtherKind]. *)
Inductive SyntaxKind : Type :=
| ClassDeclaration
| ModuleDeclaration
| MethodDeclaration
| FunctionDeclaration
| VariableStatement
| ArrowFunction
| OtherKind.

Definition SyntaxKind_eqb (a b : SyntaxKind) : bool :=
  match a, b with
  | ClassDeclaration, ClassDeclaration
  | ModuleDeclaration, ModuleDeclaration
  | MethodDeclaration, MethodDeclaration
  | FunctionDeclaration, FunctionDeclaration
  | VariableStatement, VariableStatement
  | ArrowFunction, ArrowFunction
  | OtherKind, OtherKind => true
  | _, _ => false
  end.

(** A symbol: [getName()], [getDocumentationComment(checker)],
    [valueDeclaration] and [getJsDocTags()]. *)
Record Symbol : Type := mkSymbol {
  getName : string;
  getDocumentationComment : list SymbolDisplayPart;
  valueDeclaration : option Location;
  getJsDocTags : list JSDocTagInfo
}.

(** A call or construct signature: [parameters], [getReturnType()] and
    [getDocumentationComment(checker)]. *)
Record Signature : Type := mkSignature {
  signature_parameters : list Symbol;
  getReturnType : TsType;
  signature_getDocumentationComment : list SymbolDisplayPart
}.

(** An element of [declarationList.declarations]; [symbol] is the property the
    source reads through a cast. *)
Record VariableDeclaration : Type := mkVariableDeclaration {
  declaration_symbol : option Symbol
}.

(** A syntax node.  [node_name] is the location of [node.name] when the node has
    one, [parent_name] the location of [node.parent.name] (every visited node lies
    below a source file, so it has a parent), [combinedModifierFlags] the value
    [getCombinedModifierFlags] computes for the node, [declarations] the
    declarations of a variable statement, and [children] the nodes [forEachChild]
    enumerates, in its order. *)
Inductive Node : Type := mkNode {
  node_id : Location;
  kind : SyntaxKind;
  combinedModifierFlags : Z;
  node_name : option Location;
  parent_name : option Location;
  declarations : list VariableDeclaration;
  children : list Node
}.

(** The node with other children and its own name, flags and declarations: a
    class or a namespace with a member added or removed. *)
Definition with_children (node : Node) (cs : list Node) : Node :=
  mkNode (node_id node) (kind node) (combinedModifierFlags node) (node_name node)
    (parent_name node) (declarations node) cs.

(** Induction on nodes with the hypothesis on every child. *)
Section Node_induction.
Variable P : Node -> Prop.
Hypothesis step :
  forall i k f n p ds cs, Forall P cs -> P (mkNode i k f n p ds cs).

Fixpoint Node_ind_children (node : Node) : P node :=
  match node with
  | mkNode i k f n p ds cs =>
      step i k f n p ds cs
        ((fix all (l : list Node) : Forall P l :=
            match l with
            | [] => Forall_nil P
            | c :: l' => Forall_cons c (Node_ind_children c) (all l')
            end) cs)
  end.
End Node_induction.

(** The type checker.  [getSymbolAtLocation] answers [None] for [undefined];
    [getTypeOfSymbolAtLocation] receives the possibly absent declaration the source
    passes under a non-null assertion and may throw; [getConstructSignatures] is the
    method of the resolved type. *)
Record TypeChecker : Type := mkTypeChecker {
  getSymbolAtLocation : option Location -> option Symbol;
  getTypeOfSymbolAtLocation : Symbol -> option Location -> result TsType;
  typeToString : TsType -> string;
  getConstructSignatures : TsType -> list Signature
}.

Record SourceFile : Type := mkSourceFile {
  sourceFile_fileName : string;
  isDeclarationFile : bool;
  sourceFile_children : list Node
}.

Record Program : Type := mkProgram {
  getTypeChecker : TypeChecker;
  getSourceFiles : list SourceFile
}.

(** What the extractor imports from the [typescript] module besides the types
    above: two constants of [ModifierFlags], [displayPartsToString] and
    [createProgram]. *)
Class TypeScript : Type := mkTypeScript {
  CompilerOptions : Type;
  ModifierFlags_Export : Z;
  ModifierFlags_Public : Z;
  displayPartsToString : list SymbolDisplayPart -> string;
  createProgram : list string -> CompilerOptions -> Program
}.

(** ** The extractor *)

Module Docs.

Section Extractor.
Context {ts : TypeScript}.

(** Serialize a symbol into a json object. *)
Definition serializeSymbol (checker : TypeChecker) (symbol : Symbol) : result DocEntry :=
  symbolType <- getTypeOfSymbolAtLocation checker symbol (valueDeclaration symbol) ;;
  Ok {| name := getName symbol;
        fileName := None;
        documentation := Some (displayPartsToString (getDocumentationComment symbol));
        type := Some (typeToString checker symbolType);
        constructors := None;
        parameters := None;
        methods := None;
        returnType := None;
        jsDocs := Some (getJsDocTags symbol);
        doc_type := None |}.

(** Serialize a signature (call or construct). *)
Definition serializeSignature (checker : TypeChecker) (signature : Signature)
  : result SignatureEntry :=
  params <- mapM (serializeSymbol checker) (signature_parameters signature) ;;
  Ok {| sig_parameters := Some params;
        sig_returnType := Some (typeToString checker (getReturnType signature));
        sig_documentation :=
          Some (displayPartsToString (signature_getDocumentationComment signature)) |}.

(** Serialize a class symbol information. *)
Definition serializeClass (checker : TypeChecker) (symbol : Symbol) : result DocEntry :=
  details <- serializeSymbol checker symbol ;;
  constructorType <- getTypeOfSymbolAtLocation checker symbol (valueDeclaration symbol) ;;
  signatures <- mapM (serializeSignature checker)
                     (getConstructSignatures checker constructorType) ;;
  Ok (with_constructors details (Some signatures)).

(** True if this is visible outside this file, false otherwise. *)
Definition isNodeExportedOrPublic (node : Node) : bool :=
  let flags := combinedModifierFlags node in
  negb (bitwiseAnd flags ModifierFlags_Export =? 0)%Z
  || negb (bitwiseAnd flags ModifierFlags_Public =? 0)%Z.

Definition isArrowFunction (node : Node) : bool := SyntaxKind_eqb (kind node) ArrowFunction.
Definition isClassDeclaration (node : Node) : bool := SyntaxKind_eqb (kind node) ClassDeclaration.
Definition isModuleDeclaration (node : Node) : bool := SyntaxKind_eqb (kind node) ModuleDeclaration.
Definition isMethodDeclaration (node : Node) : bool := SyntaxKind_eqb (kind node) MethodDeclaration.
Definition isFunctionDeclaration (node : Node) : bool := SyntaxKind_eqb (kind node) FunctionDeclaration.
Definition isVariableStatement (node : Node) : bool := SyntaxKind_eqb (kind node) VariableStatement.

(** The node itself when it is an arrow function, else the first one found
    below it, children in order. *)
Fixpoint findDescendantArrowFunction (node : Node) : option Node :=
  if isArrowFunction node then Some node
  else firstDefined findDescendantArrowFunction (children node).

(** The closure [addDocEntry] of [visit], with the array [entries] it pushes to
    passed in and handed back. *)
Definition addDocEntry (checker : TypeChecker) (symbol : option Symbol)
    (entries : list DocEntry) : result (list DocEntry) :=
  match symbol with
  | None => Ok entries
  | Some symbol =>
      details <- serializeSymbol checker symbol ;;
      Ok (push entries [details])
  end.

(** [classEntry.methods?.push(...docEntries)]. *)
Definition push_methods (classEntry : DocEntry) (docEntries : list DocEntry) : DocEntry :=
  match methods classEntry with
  | Some ms => with_methods classEntry (Some (push ms docEntries))
  | None => classEntry
  end.

(** visit nodes finding exported classes. *)
Fixpoint visit (checker : TypeChecker) (node : Node) : result (list DocEntry) :=
  if negb (isNodeExportedOrPublic node) then Ok []
  else
    let entries : list DocEntry := [] in
    if isClassDeclaration node && isDefined (node_name node) then
      match getSymbolAtLocation checker (node_name node) with
      | Some symbol =>
          serialized <- serializeClass checker symbol ;;
          let classEntry := with_methods serialized (Some []) in
          classEntry <-
            forEachM (fun child classEntry =>
                        docEntries <- visit checker child ;;
                        Ok (push_methods classEntry docEntries))
                     (children node) classEntry ;;
          Ok (push entries [classEntry])
      | None => Ok entries
      end
    else if isModuleDeclaration node then
      forEachM (fun child entries =>
                  docEntries <- visit checker child ;;
                  Ok (push entries docEntries))
               (children node) entries
    else if isMethodDeclaration node then
      let symbol := getSymbolAtLocation checker (node_name node) in
      addDocEntry checker symbol entries
    else if isFunctionDeclaration node then
      let symbol :=
        getSymbolAtLocation checker (Some (nullish (node_name node) (node_id node))) in
      addDocEntry checker symbol entries
    else if isVariableStatement node then
      match declarations node with
      | [] => Throw TypeError
      | first :: _ => addDocEntry checker (declaration_symbol first) entries
      end
    else
      match findDescendantArrowFunction node with
      | Some arrowFunc =>
          let symbol := getSymbolAtLocation checker (parent_name arrowFunc) in
          addDocEntry checker symbol entries
      | None => Ok entries
      end.

(** The two closures [visitChild] of [visit], as functions of the object they
    push to: the step of the loop over a class's children, and of the loop over
    a namespace's children. *)
Definition collectMethods (checker : TypeChecker) (child : Node) (classEntry : DocEntry)
  : result DocEntry :=
  docEntries <- visit checker child ;;
  Ok (push_methods classEntry docEntries).

Definition collectEntries (checker : TypeChecker) (child : Node)
    (entries : list DocEntry) : result (list DocEntry) :=
  docEntries <- visit checker child ;;
  Ok (push entries docEntries).

(** The nodes the last branch of [visit] takes, those no earlier test accepts:
    the other kinds, and a class declaration with no name. *)
Definition takesLastBranch (node : Node) : bool :=
  match kind node with
  | ClassDeclaration => negb (isDefined (node_name node))
  | ArrowFunction | OtherKind => true
  | ModuleDeclaration | MethodDeclaration | FunctionDeclaration
  | VariableStatement => false
  end.

Definition generateDocumentation (fileNames : list string) (options : CompilerOptions)
  : result (list DocEntry) :=
  let program := createProgram fileNames options in
  let checker := getTypeChecker program in
  let sourceFiles :=
    filter (fun sourceFile => negb (isDeclarationFile sourceFile)) (getSourceFiles program) in
  let result : list DocEntry := [] in
  forEachM (fun sourceFile result =>
              forEachM (fun node result =>
                          entries <- visit checker node ;;
                          Ok (push result
                                (map (fun entry =>
                                        with_fileName entry
                                          (Some (sourceFile_fileName sourceFile)))
                                     entries)))
                       (sourceFile_children sourceFile) result)
           sourceFiles result.

End Extractor.

End Docs.

(** ** The renderer's output, as the specification words it *)

Module MarkdownSpec.
Import Markdown.

(** A group's section: nothing for an empty group, else the title line and the
    group's subsections. *)
Definition section_spec (title : string) (group : list DocEntry) : list string :=
  match group with
  | [] => []
  | _ :: _ => [title ++ LF; toMarkdown group ++ LF]
  end.

(** The documentation paragraph of an entry: present when the documentation is a
    non-empty string. *)
Definition paragraph_spec (entry : DocEntry) : list string :=
  match documentation entry with
  | None => []
  | Some EmptyString => []
  | Some doc => [doc ++ LF]
  end.

(** The table: a header row, a separator row and one data row. *)
Definition table_spec (entry : DocEntry) : list string :=
  [ "| Name | Type |";
    "| ---------- | ---------- |";
    "| " ++ BT ++ name entry ++ BT ++ " | "
         ++ BT ++ match type entry with Some t => t | None => "" end ++ BT
         ++ " |" ++ LF ].

Definition bullet_spec (parameter : DocEntry) : string :=
  "* " ++ BT ++ name parameter ++ BT ++ ": "
       ++ match documentation parameter with Some d => d | None => "" end.

(** The parameter list: present when the entry has at least one parameter. *)
Definition parameters_spec (entry : DocEntry) : list string :=
  match parameters entry with
  | None => []
  | Some [] => []
  | Some ps => "Parameters:" :: map bullet_spec ps
  end.

Definition subsection_spec (entry : DocEntry) : list string :=
  ("## " ++ name entry ++ LF)
    :: (paragraph_spec entry ++ table_spec entry ++ parameters_spec entry)%list.

(** A group's section with its subsections written out. *)
Definition group_section_spec (title : string) (group : list DocEntry) : list string :=
  match group with
  | [] => []
  | _ :: _ =>
      [title ++ LF; join LF (map (fun entry => join LF (subsection_spec entry)) group) ++ LF]
  end.

(** A class section: the heading with the class name, the documentation
    paragraph (the word [undefined] when the entry has no documentation), and
    the subsections of the methods. *)
Definition class_section_spec (entry : DocEntry) : list string :=
  [ "# " ++ name entry ++ LF;
    match documentation entry with Some doc => doc | None => "undefined" end ++ LF;
    join LF (map (fun method => join LF (subsection_spec method))
                 match methods entry with Some ms => ms | None => [] end) ++ LF ].

End MarkdownSpec.

(** ** Sample programs

    Syntax trees and checker answers written out by hand, as the compiler
    would hand them to the extractor, for the properties below to be run on. *)

Module Samples.

Definition lookup {V : Type} (key : nat) (table : list (nat * V)) : option V :=
  option_map snd (find (fun kv => Nat.eqb (fst kv) key) table).

(** Nodes that carry no modifier: keywords, identifiers, parameters, blocks. *)
Definition plain (id : Location) (parent : option Location) : Node :=
  mkNode id OtherKind 0 None parent [] [].

(** Symbols, each with the location of its declaration. *)
Definition declared (n : string) (declaration : Location) : Symbol :=
  mkSymbol n [] (Some declaration) [].

(** [add.ts]:
    [export function add(a: number, b: number): number { return a + b; }] *)
Definition add_declaration : Node :=
  mkNode 1 FunctionDeclaration 1 (Some 2) None []
    [plain 3 (Some 2); plain 2 (Some 2); plain 4 (Some 2); plain 5 (Some 2);
     plain 6 (Some 2); plain 7 (Some 2)].

Definition add_file : SourceFile :=
  mkSourceFile "add.ts" false [add_declaration; plain 8 None].

(** [shape.ts]: [export class C { public m(): void {} }] *)
Definition m_declaration : Node :=
  mkNode 13 MethodDeclaration 4 (Some 14) (Some 11) []
    [plain 15 (Some 14); plain 14 (Some 14); plain 16 (Some 14)].

Definition C_declaration : Node :=
  mkNode 10 ClassDeclaration 1 (Some 11) None []
    [plain 12 (Some 11); plain 11 (Some 11); m_declaration].

Definition shape_file : SourceFile :=
  mkSourceFile "shape.ts" false [C_declaration; plain 17 None].

(** [space.ts]:
    [export namespace N { export function f() {} export function g() {} }].
    The children of the module declaration are the [export] keyword, the
    identifier [N] and the body, a block that carries no modifier; the two
    functions are the children of the block. *)
Definition f_declaration : Node :=
  mkNode 21 FunctionDeclaration 1 (Some 22) None [] [plain 22 (Some 22)].

Definition g_declaration : Node :=
  mkNode 23 FunctionDeclaration 1 (Some 24) None [] [plain 24 (Some 24)].

Definition N_body : Node :=
  mkNode 27 OtherKind 0 None (Some 20) [] [f_declaration; g_declaration].

Definition N_declaration : Node :=
  mkNode 25 ModuleDeclaration 1 (Some 20) None []
    [plain 26 (Some 20); plain 20 (Some 20); N_body].

Definition space_file : SourceFile :=
  mkSourceFile "space.ts" false [N_declaration].

(** [hidden.ts]: [function h() {}] and [class K {}], neither exported. *)
Definition h_declaration : Node :=
  mkNode 31 FunctionDeclaration 0 (Some 32) None [] [plain 32 (Some 32)].

Definition K_declaration : Node :=
  mkNode 33 ClassDeclaration 0 (Some 34) None [] [plain 34 (Some 34)].

Definition hidden_file : SourceFile :=
  mkSourceFile "hidden.ts" false [h_declaration; K_declaration].

(** Exported variable statements: [export const x = 1] with its symbol bound,
    one whose declaration carries no symbol, one whose declaration list is
    empty. *)
Definition x_symbol : Symbol := declared "x" 42.

Definition x_statement : Node :=
  mkNode 41 VariableStatement 1 None None
    [mkVariableDeclaration (Some x_symbol)] [plain 43 None].

Definition unbound_statement : Node :=
  mkNode 44 VariableStatement 1 None None [mkVariableDeclaration None] [plain 45 None].

Definition empty_statement : Node :=
  mkNode 46 VariableStatement 1 None None [] [plain 47 None].

(** Exported or public declarations whose names the checker does not resolve:
    a class, a method, a function, and the class property
    [public handler = wrap(() => 1)], whose arrow function has a call as its
    parent, which has no name. *)
Definition ghost_class : Node :=
  mkNode 51 ClassDeclaration 1 (Some 52) None [] [m_declaration].

Definition ghost_method : Node :=
  mkNode 53 MethodDeclaration 4 (Some 54) None [] [].

Definition ghost_function : Node :=
  mkNode 55 FunctionDeclaration 1 (Some 56) None [] [].

Definition ghost_arrow : Node :=
  mkNode 57 OtherKind 4 (Some 58) (Some 11) []
    [ plain 63 (Some 58);
      plain 58 (Some 58);
      mkNode 64 OtherKind 0 None (Some 58) []
        [ plain 65 None;
          mkNode 59 ArrowFunction 0 None None [] [plain 60 None] ] ].

(** An exported function whose symbol has no declaring location. *)
Definition orphan_symbol : Symbol := mkSymbol "orphan" [] None [].

Definition orphan_function : Node :=
  mkNode 61 FunctionDeclaration 1 (Some 62) None [] [].

Definition orphan_file : SourceFile :=
  mkSourceFile "orphan.ts" false [orphan_function].

(** [broken.ts]: the variable statement with an empty declaration list. *)
Definition broken_file : SourceFile :=
  mkSourceFile "broken.ts" false [empty_statement].

Definition symbols : list (Location * Symbol) :=
  [ (2, declared "add" 1); (11, declared "C" 10); (14, declared "m" 13);
    (22, declared "f" 21); (24, declared "g" 23); (62, orphan_symbol) ].

Definition types : list (Location * TsType) :=
  [ (1, 100); (4, 101); (5, 101); (10, 110); (13, 112); (21, 113); (23, 113);
    (42, 101) ].

Definition typeNames : list (TsType * string) :=
  [ (100, "(a: number, b: number) => number"); (101, "number");
    (110, "typeof C"); (111, "C"); (112, "() => void"); (113, "() => void") ].

(** A checker that knows the samples.  Given no declaring location its type
    query does not throw: it answers the error type (type 0), which
    [typeToString] prints as [any]. *)
Definition checker : TypeChecker :=
  {| getSymbolAtLocation := fun location =>
       match location with
       | Some l => lookup l symbols
       | None => None
       end;
     getTypeOfSymbolAtLocation := fun _ declaration =>
       match declaration with
       | Some d => Ok (nullish (lookup d types) 0)
       | None => Ok 0
       end;
     typeToString := fun t => nullish (lookup t typeNames) "any";
     getConstructSignatures := fun t =>
       if Nat.eqb t 110 then [mkSignature [] 111 []] else [] |}.

(** Entries tagged for the renderer: a function with two parameters, a
    constant with no documentation, a class with one method, and an entry with
    no tag. *)
Definition parameter_entry (n : string) (doc : option string) : DocEntry :=
  mkDocEntry n None doc (Some "number") None None None None None None.

Definition add_entry : DocEntry :=
  mkDocEntry "add" None (Some "Adds.") (Some "(a: number, b: number) => number") None
    (Some [parameter_entry "a" (Some "first"); parameter_entry "b" None])
    None None None (Some "function").

Definition pi_entry : DocEntry :=
  mkDocEntry "pi" None None None None None None None None (Some "const").

Definition C_entry : DocEntry :=
  mkDocEntry "C" None (Some "A class.") (Some "typeof C") None None
    (Some [mkDocEntry "m" None (Some "") (Some "() => void") None None None None None None])
    None None (Some "class").

Definition plain_entry : DocEntry :=
  mkDocEntry "q" None None None None None None None None None.

Definition program_of (fileNames : list string) : list SourceFile :=
  flat_map (fun f =>
              filter (fun sf => String.eqb (sourceFile_fileName sf) f)
                     [add_file; shape_file; space_file; hidden_file; orphan_file;
                      broken_file])
           fileNames.

(** The [typescript] module with [ModifierFlags.Export = 1] and
    [ModifierFlags.Public = 4]. *)
Definition typescript : TypeScript :=
  {| CompilerOptions := unit;
     ModifierFlags_Export := 1;
     ModifierFlags_Public := 4;
     displayPartsToString := fun parts => String.concat "" (map part_text parts);
     createProgram := fun fileNames _ => mkProgram checker (program_of fileNames) |}.

End Samples.

(** ** The extractor's behaviour, as the specification words it *)

Module DocsSpec.
Import Docs.

Section Spec.
Context {ts : TypeScript}.

(** Stamping a record with the path of its file. *)
Definition stamp (sourceFile : SourceFile) (entry : DocEntry) : DocEntry :=
  with_fileName entry (Some (sourceFile_fileName sourceFile)).

(** The records of one file: those of its top-level nodes, in order, stamped. *)
Definition extractFile (checker : TypeChecker) (sourceFile : SourceFile)
  : result (list DocEntry) :=
  perNode <- mapM (visit checker) (sourceFile_children sourceFile) ;;
  Ok (map (stamp sourceFile) (List.concat perNode)).

(** The records of a program: those of its files that are no declaration
    files, in file order, nothing merged and nothing dropped. *)
Definition extractProgram (program : Program) : result (list DocEntry) :=
  perFile <- mapM (extractFile (getTypeChecker program))
                  (filter (fun sourceFile => negb (isDeclarationFile sourceFile))
                          (getSourceFiles program)) ;;
  Ok (List.concat perFile).

(** A node that fails the visibility gate. *)
Definition hidden (node : Node) : Prop := isNodeExportedOrPublic node = false.

(** The record [serializeSymbol] builds from a symbol whose type resolved
    to [t]. *)
Definition symbolEntry (checker : TypeChecker) (symbol : Symbol) (t : TsType) : DocEntry :=
  {| name := getName symbol;
     fileName := None;
     documentation := Some (displayPartsToString (getDocumentationComment symbol));
     type := Some (typeToString checker t);
     constructors := None;
     parameters := None;
     methods := None;
     returnType := None;
     jsDocs := Some (getJsDocTags symbol);
     doc_type := None |}.

(** The record the scenario of [add.ts] describes: named [add], with the
    given type string, two parameters [a] and [b], and return type [number]. *)
Definition describes_add (typeString : string) (entry : DocEntry) : Prop :=
  name entry = "add"
  /\ type entry = Some typeString
  /\ (exists a b, parameters entry = Some [a; b] /\ name a = "a" /\ name b = "b")
  /\ returnType entry = Some "number".

(** A node of the class, method, function or arrow-function branch whose name
    the checker resolves to no symbol. *)
Inductive unresolved (checker : TypeChecker) (node : Node) : Prop :=
| unresolved_class (nameOfClass : Location) :
    kind node = ClassDeclaration ->
    node_name node = Some nameOfClass ->
    getSymbolAtLocation checker (Some nameOfClass) = None ->
    unresolved checker node
| unresolved_method :
    kind node = MethodDeclaration ->
    getSymbolAtLocation checker (node_name node) = None ->
    unresolved checker node
| unresolved_function :
    kind node = FunctionDeclaration ->
    getSymbolAtLocation checker (Some (nullish (node_name node) (node_id node))) = None ->
    unresolved checker node
| unresolved_arrow (arrowFunc : Node) :
    takesLastBranch node = true ->
    findDescendantArrowFunction node = Some arrowFunc ->
    getSymbolAtLocation checker (parent_name arrowFunc) = None ->
    unresolved checker node.

(** A node whose children [visit] walks: a module declaration, or a named
    class declaration. *)
Definition isContainer (node : Node) : Prop :=
  kind node = ModuleDeclaration
  \/ (kind node = ClassDeclaration /\ node_name node <> None).

(** C7 as it is stated: [serializeSymbol] faults on every symbol that has no
    declaring location. *)
Definition faults_without_location (checker : TypeChecker) : Prop :=
  forall symbol,
    valueDeclaration symbol = None ->
    exists e, serializeSymbol checker symbol = Throw e.

(** [reaches checker node symbol]: visiting [node] hands [symbol] to
    [serializeSymbol], either at the node itself (a class and the parameters of
    its construct signatures, a method, a function, a variable statement, an
    arrow function) or below a class or a namespace. *)
Inductive reaches (checker : TypeChecker) : Node -> Symbol -> Prop :=
| reaches_class node nameOfClass symbol :
    isNodeExportedOrPublic node = true ->
    kind node = ClassDeclaration ->
    node_name node = Some nameOfClass ->
    getSymbolAtLocation checker (Some nameOfClass) = Some symbol ->
    reaches checker node symbol
| reaches_constructor node nameOfClass classSymbol t signature symbol :
    isNodeExportedOrPublic node = true ->
    kind node = ClassDeclaration ->
    node_name node = Some nameOfClass ->
    getSymbolAtLocation checker (Some nameOfClass) = Some classSymbol ->
    getTypeOfSymbolAtLocation checker classSymbol (valueDeclaration classSymbol) = Ok t ->
    In signature (getConstructSignatures checker t) ->
    In symbol (signature_parameters signature) ->
    reaches checker node symbol
| reaches_method node symbol :
    isNodeExportedOrPublic node = true ->
    kind node = MethodDeclaration ->
    getSymbolAtLocation checker (node_name node) = Some symbol ->
    reaches checker node symbol
| reaches_function node symbol :
    isNodeExportedOrPublic node = true ->
    kind node = FunctionDeclaration ->
    getSymbolAtLocation checker (Some (nullish (node_name node) (node_id node)))
    = Some symbol ->
    reaches checker node symbol
| reaches_variable node first others symbol :
    isNodeExportedOrPublic node = true ->
    kind node = VariableStatement ->
    declarations node = first :: others ->
    declaration_symbol first = Some symbol ->
    reaches checker node symbol
| reaches_arrow node arrowFunc symbol :
    isNodeExportedOrPublic node = true ->
    takesLastBranch node = true ->
    findDescendantArrowFunction node = Some arrowFunc ->
    getSymbolAtLocation checker (parent_name arrowFunc) = Some symbol ->
    reaches checker node symbol
| reaches_member node nameOfClass classSymbol child symbol :
    isNodeExportedOrPublic node = true ->
    kind node = ClassDeclaration ->
    node_name node = Some nameOfClass ->
    getSymbolAtLocation checker (Some nameOfClass) = Some classSymbol ->
    In child (children node) ->
    reaches checker child symbol ->
    reaches checker node symbol
| reaches_namespace node child symbol :
    isNodeExportedOrPublic node = true ->
    kind node = ModuleDeclaration ->
    In child (children node) ->
    reaches checker child symbol ->
    reaches checker node symbol.

(** The variable-statement branch with no guard at all: the first declaration
    is read whether or not there is one, and its symbol is serialized whether or
    not there is one, each absent object ending in a [TypeError]. *)
Definition variableStatement_unguarded (checker : TypeChecker) (node : Node)
  : result (list DocEntry) :=
  match declarations node with
  | [] => Throw TypeError
  | first :: _ =>
      match declaration_symbol first with
      | None => Throw TypeError
      | Some symbol =>
          details <- serializeSymbol checker symbol ;;
          Ok [details]
      end
  end.

(** The same branch with the guard of [addDocEntry]: an absent symbol adds
    nothing. *)
Definition variableStatement_guarded (checker : TypeChecker) (node : Node)
  : result (list DocEntry) :=
  match declarations node with
  | [] => Throw TypeError
  | first :: _ =>
      match declaration_symbol first with
      | None => Ok []
      | Some symbol =>
          details <- serializeSymbol checker symbol ;;
          Ok [details]
      end
  end.

End Spec.

End DocsSpec.

(** ** Notions used by the further properties of the extractor *)

Module Traversal.
Import Docs.

(** The nodes of a subtree in document order: the node, then the subtrees of
    its children, first child first. *)
Fixpoint descendants (node : Node) : list Node :=
  node :: flat_map descendants (children node).

(** A variable statement with at least one declaration; true of every other
    kind of node. *)
Definition hasFirstDeclaration (node : Node) : Prop :=
  kind node = VariableStatement -> declarations node <> [].

(** A checker whose type query answers for every symbol and every location,
    present or absent. *)
Definition answers_always (checker : TypeChecker) : Prop :=
  forall symbol declaration,
    exists t, getTypeOfSymbolAtLocation checker symbol declaration = Ok t.

(** The fields every record built by [serializeSymbol] has and lacks. *)
Definition symbolShaped (entry : DocEntry) : Prop :=
  fileName entry = None
  /\ documentation entry <> None
  /\ type entry <> None
  /\ jsDocs entry <> None
  /\ parameters entry = None
  /\ returnType entry = None
  /\ doc_type entry = None.

(** The two shapes of a record [visit] returns: a member (no [constructors],
    no [methods]) or a class (both present, the methods of one of the two
    shapes again). *)
Inductive extracted : DocEntry -> Prop :=
| extracted_member entry :
    symbolShaped entry ->
    constructors entry = None ->
    methods entry = None ->
    extracted entry
| extracted_class entry signatures members :
    symbolShaped entry ->
    constructors entry = Some signatures ->
    methods entry = Some members ->
    Forall extracted members ->
    extracted entry.

(** What the loop over a class's children keeps true of the class record. *)
Definition classInProgress (signatures : list SignatureEntry) (entry : DocEntry) : Prop :=
  symbolShaped entry
  /\ constructors entry = Some signatures
  /\ exists members, methods entry = Some members /\ Forall extracted members.

(** The subsection of an entry without its parameter list. *)
Definition subsection_without_parameters (entry : DocEntry) : list string :=
  ("## " ++ name entry ++ LF)
    :: (MarkdownSpec.paragraph_spec entry ++ MarkdownSpec.table_spec entry)%list.

(** The entries the renderer keeps: those tagged [function], [const] or
    [class]. *)
Definition tagged (entry : DocEntry) : bool :=
  Markdown.doc_type_is "function" entry
  || Markdown.doc_type_is "const" entry
  || Markdown.doc_type_is "class" entry.

End Traversal.

(** ** Further sample programs *)

Module MoreSamples.

(** [export default class { handler = () => 1 }]: an exported class with no
    name, whose property [handler] (name at location 73) holds an arrow
    function. *)
Definition handler_symbol : Symbol := Samples.declared "handler" 72.

Definition unnamed_class : Node :=
  mkNode 71 ClassDeclaration 1 None None []
    [ Samples.plain 70 None;
      mkNode 72 OtherKind 0 (Some 73) None []
        [ Samples.plain 73 (Some 73);
          mkNode 74 ArrowFunction 0 None (Some 73) [] [Samples.plain 75 None] ] ].

(** A checker that resolves location 73 to [handler] and never throws. *)
Definition handler_checker : TypeChecker :=
  {| getSymbolAtLocation := fun location =>
       match location with
       | Some 73 => Some handler_symbol
       | _ => None
       end;
     getTypeOfSymbolAtLocation := fun _ _ => Ok 112;
     typeToString := typeToString Samples.checker;
     getConstructSignatures := fun _ => [] |}.

(** A class whose constructor takes [x] and [y]. *)
Definition point_symbol : Symbol := Samples.declared "Point" 80.

Definition point_checker : TypeChecker :=
  {| getSymbolAtLocation := fun _ => Some point_symbol;
     getTypeOfSymbolAtLocation := fun _ _ => Ok 101;
     typeToString := typeToString Samples.checker;
     getConstructSignatures := fun _ =>
       [ mkSignature [Samples.declared "x" 81; Samples.declared "y" 82] 101 [];
         mkSignature [] 101 [] ] |}.

(** [lib.d.ts], a declaration file whose one statement has no declaration: it
    would throw if it were visited. *)
Definition lib_file : SourceFile :=
  mkSourceFile "lib.d.ts" true [Samples.empty_statement].

(** The [typescript] module of [Samples] whose programs hold [lib.d.ts] before
    the files that are asked for. *)
Definition lib_typescript : TypeScript :=
  {| CompilerOptions := unit;
     ModifierFlags_Export := 1;
     ModifierFlags_Public := 4;
     displayPartsToString := fun parts => String.concat "" (map part_text parts);
     createProgram := fun fileNames _ =>
       mkProgram Samples.checker (lib_file :: Samples.program_of fileNames) |}.

End MoreSamples.

(** * Properties of the renderer *)

Import Markdown MarkdownSpec.

Lemma doc_type_is_true (tag : string) (entry : DocEntry) :
  doc_type_is tag entry = true <-> doc_type entry = Some tag.
Proof.
  unfold doc_type_is. destruct (doc_type entry) as [t|].
  - rewrite String.eqb_eq. split; congruence.
  - split; discriminate.
Qed.

Lemma group_members (tag : string) (entries : list DocEntry) (entry : DocEntry) :
  In entry (filter (doc_type_is tag) entries)
  <-> In entry entries /\ doc_type entry = Some tag.
Proof. rewrite filter_In, doc_type_is_true. reflexivity. Qed.

Lemma groups_disjoint (tag tag' : string) (entries : list DocEntry) (entry : DocEntry) :
  tag <> tag' ->
  ~ (In entry (filter (doc_type_is tag) entries)
     /\ In entry (filter (doc_type_is tag') entries)).
Proof.
  intros Hne [H H']. apply group_members in H, H'.
  destruct H as [_ H], H' as [_ H']. congruence.
Qed.

Lemma untagged_group (tag : string) (entries : list DocEntry) :
  Forall (fun entry => doc_type entry = None) entries ->
  filter (doc_type_is tag) entries = [].
Proof.
  induction 1 as [|entry rest Hentry _ IH]; simpl.
  - reflexivity.
  - unfold doc_type_is at 1. rewrite Hentry. exact IH.
Qed.

Lemma paramToMarkdown_bullet (parameter : DocEntry) :
  paramToMarkdown {| param_name := name parameter;
                     param_documentation := nullish (documentation parameter) "" |}
  = bullet_spec parameter.
Proof. reflexivity. Qed.

Lemma rowToMarkdown_subsection (entry : DocEntry) :
  rowToMarkdown (toRow entry) = join LF (subsection_spec entry).
Proof.
  unfold rowToMarkdown, toRow, subsection_spec, paragraph_spec, parameters_spec,
    table_spec; cbn [row_name row_type row_documentation row_params].
  assert (Hparams : forall ps,
             map paramToMarkdown
               (map (fun p => {| param_name := name p;
                                 param_documentation := nullish (documentation p) "" |}) ps)
             = map bullet_spec ps).
  { intros ps. rewrite map_map. apply map_ext. exact paramToMarkdown_bullet. }
  destruct (documentation entry) as [[|c doc]|];
    destruct (parameters entry) as [[|p ps]|];
    cbn [nullish nonEmptyString String.length Nat.eqb negb nonEmpty push app map];
    try reflexivity;
    rewrite Hparams; reflexivity.
Qed.

(** C9.  Every entry of a function or constant group is rendered as the
    subsection [subsection_spec]: the heading [## name]; the documentation
    paragraph exactly when the documentation is a non-empty string; the
    two-column table whose single data row holds the backticked name and the
    backticked type, the empty string when the type is absent; and the line
    [Parameters:] followed by one bullet per parameter exactly when the parameter
    list is non-empty.  [toMarkdown] joins these subsections in order. *)
Theorem toMarkdown_subsections (entries : list DocEntry) :
  toMarkdown entries
  = join LF (map (fun entry => join LF (subsection_spec entry)) entries)
  /\ (forall entry,
        subsection_spec entry
        = ("## " ++ name entry ++ LF)
            :: List.app
                 (if nonEmptyString (nullish (documentation entry) "")
                  then [nullish (documentation entry) "" ++ LF] else [])
                 (List.app
                    [ "| Name | Type |";
                      "| ---------- | ---------- |";
                      "| " ++ BT ++ name entry ++ BT ++ " | "
                           ++ BT ++ nullish (type entry) "" ++ BT ++ " |" ++ LF ]
                    (if nonEmpty (nullish (parameters entry) [])
                     then "Parameters:"
                            :: map (fun p => "* " ++ BT ++ name p ++ BT ++ ": "
                                                  ++ nullish (documentation p) "")
                                   (nullish (parameters entry) [])
                     else []))).
Proof.
  split.
  - unfold toMarkdown. rewrite map_map. f_equal.
    apply map_ext. exact rowToMarkdown_subsection.
  - intros entry.
    unfold subsection_spec, paragraph_spec, parameters_spec, table_spec.
    destruct (documentation entry) as [[|c doc]|];
      destruct (parameters entry) as [[|p ps]|]; reflexivity.
Qed.

(** The subsection of [add], with its paragraph and its two bullets, and that
    of [pi], with neither and an empty type. *)
Lemma toMarkdown_subsections_witness :
  Markdown.toMarkdown [Samples.add_entry; Samples.pi_entry]
  = join LF
      [ join LF [ "## add" ++ LF;
                  "Adds." ++ LF;
                  "| Name | Type |";
                  "| ---------- | ---------- |";
                  "| " ++ BT ++ "add" ++ BT ++ " | " ++ BT
                       ++ "(a: number, b: number) => number" ++ BT ++ " |" ++ LF;
                  "Parameters:";
                  "* " ++ BT ++ "a" ++ BT ++ ": first";
                  "* " ++ BT ++ "b" ++ BT ++ ": " ];
        join LF [ "## pi" ++ LF;
                  "| Name | Type |";
                  "| ---------- | ---------- |";
                  "| " ++ BT ++ "pi" ++ BT ++ " | " ++ BT ++ BT ++ " |" ++ LF ] ].
Proof.
  rewrite (proj1 (toMarkdown_subsections [Samples.add_entry; Samples.pi_entry])).
  reflexivity.
Defined.

Lemma toMarkdown_rows (entries : list DocEntry) :
  toMarkdown entries
  = join LF (map (fun entry => join LF (subsection_spec entry)) entries).
Proof.
  unfold toMarkdown. rewrite map_map. f_equal.
  apply map_ext. exact rowToMarkdown_subsection.
Qed.

Lemma classesToMarkdown_section (entry : DocEntry) :
  classesToMarkdown entry = join LF (class_section_spec entry).
Proof.
  unfold classesToMarkdown, class_section_spec. cbv zeta.
  rewrite toMarkdown_rows.
  destruct (documentation entry); destruct (methods entry); reflexivity.
Qed.

(** C1.  The renderer selects three groups of the entries by [doc_type] being
    [function], [class] or [const]; no entry lies in two of them; and the output
    is, in this order, the Functions section exactly when the function group is
    non-empty, the Constants section exactly when the const group is non-empty,
    and one class section per entry of the class group.  A group's section is
    its title line followed by the subsections of its entries; a class section
    is the heading with the class name, the documentation paragraph and the
    subsections of the methods. *)
Theorem documentationToMarkdown_sections (entries : list DocEntry) :
  let functions := filter (doc_type_is "function") entries in
  let classes := filter (doc_type_is "class") entries in
  let consts := filter (doc_type_is "const") entries in
  (forall entry,
      (In entry functions <-> In entry entries /\ doc_type entry = Some "function")
      /\ (In entry classes <-> In entry entries /\ doc_type entry = Some "class")
      /\ (In entry consts <-> In entry entries /\ doc_type entry = Some "const"))
  /\ (forall entry,
         ~ (In entry functions /\ In entry classes)
         /\ ~ (In entry functions /\ In entry consts)
         /\ ~ (In entry classes /\ In entry consts))
  /\ documentationToMarkdown entries
     = join LF (section_spec "# Functions" functions
                  ++ section_spec "# Constants" consts
                  ++ [join LF (map classesToMarkdown classes)])%list
  /\ (section_spec "# Functions" functions = [] <-> functions = [])
  /\ (section_spec "# Constants" consts = [] <-> consts = [])
  /\ List.length (map classesToMarkdown classes) = List.length classes
  /\ documentationToMarkdown entries
     = join LF (group_section_spec "# Functions" functions
                  ++ group_section_spec "# Constants" consts
                  ++ [join LF (map (fun entry => join LF (class_section_spec entry))
                                   classes)])%list
  /\ (group_section_spec "# Functions" functions = [] <-> functions = [])
  /\ (group_section_spec "# Constants" consts = [] <-> consts = [])
  /\ (forall entry, classesToMarkdown entry = join LF (class_section_spec entry))
  /\ (forall entry,
         class_section_spec entry
         = [ "# " ++ name entry ++ LF;
             interpolate (documentation entry) ++ LF;
             join LF (map (fun method => join LF (subsection_spec method))
                          (nullish (methods entry) [])) ++ LF ]).
Proof.
  intros functions classes consts.
  split.
  { intros entry. split; [|split]; apply group_members. }
  split.
  { intros entry. split; [|split]; apply groups_disjoint; discriminate. }
  split.
  { unfold documentationToMarkdown. fold functions classes consts.
    destruct functions; destruct consts; reflexivity. }
  split.
  { destruct functions; split; intros H; (reflexivity || discriminate H). }
  split.
  { destruct consts; split; intros H; (reflexivity || discriminate H). }
  split; [apply length_map|].
  split.
  { unfold documentationToMarkdown. fold functions classes consts.
    rewrite (map_ext _ _ classesToMarkdown_section).
    destruct functions as [|f fs]; destruct consts as [|k ks];
      cbn [nonEmpty group_section_spec push app];
      rewrite ?toMarkdown_rows; reflexivity. }
  split.
  { destruct functions; split; intros H; (reflexivity || discriminate H). }
  split.
  { destruct consts; split; intros H; (reflexivity || discriminate H). }
  split; [exact classesToMarkdown_section|].
  intros entry. unfold class_section_spec.
  destruct (documentation entry); destruct (methods entry); reflexivity.
Qed.

(** Four entries, one per tag and one with none, given out of order: the
    sections come out as Functions, Constants, then the class. *)
Lemma documentationToMarkdown_sections_witness :
  Markdown.documentationToMarkdown
    [Samples.C_entry; Samples.plain_entry; Samples.pi_entry; Samples.add_entry]
  = join LF
      [ "# Functions" ++ LF;
        join LF [ "## add" ++ LF;
                  "Adds." ++ LF;
                  "| Name | Type |";
                  "| ---------- | ---------- |";
                  "| " ++ BT ++ "add" ++ BT ++ " | " ++ BT
                       ++ "(a: number, b: number) => number" ++ BT ++ " |" ++ LF;
                  "Parameters:";
                  "* " ++ BT ++ "a" ++ BT ++ ": first";
                  "* " ++ BT ++ "b" ++ BT ++ ": " ] ++ LF;
        "# Constants" ++ LF;
        join LF [ "## pi" ++ LF;
                  "| Name | Type |";
                  "| ---------- | ---------- |";
                  "| " ++ BT ++ "pi" ++ BT ++ " | " ++ BT ++ BT ++ " |" ++ LF ] ++ LF;
        join LF [ "# C" ++ LF;
                  "A class." ++ LF;
                  join LF [ "## m" ++ LF;
                            "| Name | Type |";
                            "| ---------- | ---------- |";
                            "| " ++ BT ++ "m" ++ BT ++ " | " ++ BT ++ "() => void"
                                 ++ BT ++ " |" ++ LF ] ++ LF ] ].
Proof.
  pose proof (documentationToMarkdown_sections
                [Samples.C_entry; Samples.plain_entry; Samples.pi_entry;
                 Samples.add_entry]) as H.
  cbv zeta in H. destruct H as (_ & _ & _ & _ & _ & _ & H & _).
  rewrite H. reflexivity.
Defined.

(** * Loops and exceptions *)

Lemma bind_Ok {A B : Type} (c : result A) (k : A -> result B) (b : B) :
  bind c k = Ok b -> exists a, c = Ok a /\ k a = Ok b.
Proof. destruct c as [a|e]; simpl; [eauto | discriminate]. Qed.

Lemma forEachM_app {A S : Type} (body : A -> S -> result S) (l1 l2 : list A) (acc : S) :
  forEachM body (l1 ++ l2)%list acc
  = (acc' <- forEachM body l1 acc ;; forEachM body l2 acc').
Proof.
  revert acc. induction l1 as [|a l1 IH]; intros acc; simpl.
  - reflexivity.
  - destruct (body a acc) as [acc'|e]; simpl; [apply IH | reflexivity].
Qed.

Lemma forEachM_ext {A S : Type} (body body' : A -> S -> result S) (l : list A) :
  (forall a, In a l -> forall acc, body a acc = body' a acc) ->
  forall acc, forEachM body l acc = forEachM body' l acc.
Proof.
  induction l as [|a l IH]; intros Hbody acc; simpl.
  - reflexivity.
  - rewrite (Hbody a (or_introl eq_refl)).
    destruct (body' a acc) as [acc'|e]; simpl; [|reflexivity].
    apply IH. intros b Hb. apply Hbody. right. exact Hb.
Qed.

(** A loop that adds the result of each step to its accumulator computes the
    results first and adds them in order. *)
Lemma forEachM_collect {A R S : Type} (f : A -> result R) (g : S -> R -> S)
    (l : list A) (acc : S) :
  forEachM (fun a acc => r <- f a ;; Ok (g acc r)) l acc
  = (rs <- mapM f l ;; Ok (fold_left g rs acc)).
Proof.
  revert acc. induction l as [|a l IH]; intros acc; simpl.
  - reflexivity.
  - destruct (f a) as [r|e]; simpl; [|reflexivity].
    rewrite IH. destruct (mapM f l) as [rs|e]; reflexivity.
Qed.

(** A step that leaves the accumulator as it is can be dropped from a loop. *)
Lemma forEachM_skip {A S : Type} (body : A -> S -> result S) (a : A) (l1 l2 : list A) :
  (forall acc, body a acc = Ok acc) ->
  forall acc, forEachM body (l1 ++ a :: l2)%list acc = forEachM body (l1 ++ l2)%list acc.
Proof.
  intros Ha acc. rewrite !forEachM_app.
  destruct (forEachM body l1 acc) as [acc'|e]; simpl; [|reflexivity].
  rewrite Ha. reflexivity.
Qed.

(** A step that throws whatever the accumulator makes the loop throw. *)
Lemma forEachM_Throw {A S : Type} (body : A -> S -> result S) (a : A) (l : list A) :
  In a l ->
  (forall acc, exists e, body a acc = Throw e) ->
  forall acc, exists e, forEachM body l acc = Throw e.
Proof.
  induction l as [|b l IH]; intros Hin Ha acc; simpl.
  - destruct Hin.
  - destruct Hin as [->|Hin].
    + destruct (Ha acc) as [e ->]. exists e. reflexivity.
    + destruct (body b acc) as [acc'|e]; simpl.
      * apply IH; assumption.
      * exists e. reflexivity.
Qed.

Lemma forEachM_invariant {A S : Type} (P : S -> Prop) (body : A -> S -> result S)
    (l : list A) :
  (forall a, In a l -> forall acc acc', P acc -> body a acc = Ok acc' -> P acc') ->
  forall acc acc', P acc -> forEachM body l acc = Ok acc' -> P acc'.
Proof.
  induction l as [|a l IH]; intros Hbody acc acc' Hacc; simpl.
  - intros [= <-]. exact Hacc.
  - intros H. apply bind_Ok in H as (acc1 & H1 & H2).
    apply (IH (fun b Hb => Hbody b (or_intror Hb)) acc1 acc'); [|exact H2].
    exact (Hbody a (or_introl eq_refl) acc acc1 Hacc H1).
Qed.

Lemma mapM_Ok_all {A B : Type} (f : A -> result B) (g : A -> B) (l : list A) :
  (forall a, In a l -> f a = Ok (g a)) -> mapM f l = Ok (map g l).
Proof.
  induction l as [|a l IH]; intros H; simpl.
  - reflexivity.
  - rewrite (H a (or_introl eq_refl)). simpl.
    rewrite IH; [reflexivity|]. intros b Hb. apply H. right. exact Hb.
Qed.

Lemma fold_left_push {A : Type} (rs : list (list A)) (acc : list A) :
  fold_left push rs acc = (acc ++ List.concat rs)%list.
Proof.
  revert acc. induction rs as [|r rs IH]; intros acc; simpl.
  - rewrite app_nil_r. reflexivity.
  - rewrite IH. unfold push. rewrite app_assoc. reflexivity.
Qed.

Lemma fold_left_push_map {A B : Type} (h : A -> B) (rs : list (list A)) (acc : list B) :
  fold_left (fun acc r => push acc (map h r)) rs acc = (acc ++ map h (List.concat rs))%list.
Proof.
  revert acc. induction rs as [|r rs IH]; intros acc; simpl.
  - rewrite app_nil_r. reflexivity.
  - rewrite IH. unfold push. rewrite map_app, app_assoc. reflexivity.
Qed.

(** * Properties of the extractor *)

Import Docs DocsSpec.

Section Visiting.
Context {ts : TypeScript}.
Variable checker : TypeChecker.

(** ** The visiting rule, branch by branch *)

Lemma visit_hidden (node : Node) :
  isNodeExportedOrPublic node = false -> visit checker node = Ok [].
Proof. intros H. destruct node. simpl in *. rewrite H. reflexivity. Qed.

Lemma visit_class (node : Node) (nameOfClass : Location) :
  isNodeExportedOrPublic node = true ->
  kind node = ClassDeclaration ->
  node_name node = Some nameOfClass ->
  visit checker node
  = match getSymbolAtLocation checker (Some nameOfClass) with
    | Some symbol =>
        serialized <- serializeClass checker symbol ;;
        classEntry <- forEachM (collectMethods checker) (children node)
                               (with_methods serialized (Some [])) ;;
        Ok [classEntry]
    | None => Ok []
    end.
Proof.
  intros Hgate Hkind Hname. destruct node; simpl in *.
  rewrite Hgate. unfold isClassDeclaration. simpl. rewrite Hkind, Hname. reflexivity.
Qed.

Lemma visit_module (node : Node) :
  isNodeExportedOrPublic node = true ->
  kind node = ModuleDeclaration ->
  visit checker node = forEachM (collectEntries checker) (children node) [].
Proof.
  intros Hgate Hkind. destruct node; simpl in *.
  rewrite Hgate. unfold isClassDeclaration, isModuleDeclaration. simpl.
  rewrite Hkind. reflexivity.
Qed.

Lemma visit_method (node : Node) :
  isNodeExportedOrPublic node = true ->
  kind node = MethodDeclaration ->
  visit checker node
  = addDocEntry checker (getSymbolAtLocation checker (node_name node)) [].
Proof.
  intros Hgate Hkind. destruct node; simpl in *.
  rewrite Hgate.
  unfold isClassDeclaration, isModuleDeclaration, isMethodDeclaration. simpl.
  rewrite Hkind. reflexivity.
Qed.

Lemma visit_function (node : Node) :
  isNodeExportedOrPublic node = true ->
  kind node = FunctionDeclaration ->
  visit checker node
  = addDocEntry checker
      (getSymbolAtLocation checker (Some (nullish (node_name node) (node_id node)))) [].
Proof.
  intros Hgate Hkind. destruct node; simpl in *.
  rewrite Hgate.
  unfold isClassDeclaration, isModuleDeclaration, isMethodDeclaration,
    isFunctionDeclaration. simpl.
  rewrite Hkind. reflexivity.
Qed.

Lemma visit_variable (node : Node) :
  isNodeExportedOrPublic node = true ->
  kind node = VariableStatement ->
  visit checker node
  = match declarations node with
    | [] => Throw TypeError
    | first :: _ => addDocEntry checker (declaration_symbol first) []
    end.
Proof.
  intros Hgate Hkind. destruct node; simpl in *.
  rewrite Hgate.
  unfold isClassDeclaration, isModuleDeclaration, isMethodDeclaration,
    isFunctionDeclaration, isVariableStatement. simpl.
  rewrite Hkind. reflexivity.
Qed.

Lemma visit_other (node : Node) :
  isNodeExportedOrPublic node = true ->
  takesLastBranch node = true ->
  visit checker node
  = match findDescendantArrowFunction node with
    | Some arrowFunc =>
        addDocEntry checker (getSymbolAtLocation checker (parent_name arrowFunc)) []
    | None => Ok []
    end.
Proof.
  intros Hgate Hlast. destruct node as [i k f n p ds cs].
  unfold takesLastBranch in Hlast. simpl in Hlast.
  cbn [visit]. rewrite Hgate. cbn [negb].
  unfold isClassDeclaration, isModuleDeclaration, isMethodDeclaration,
    isFunctionDeclaration, isVariableStatement.
  cbn [kind node_name].
  destruct k; try discriminate Hlast; cbn [SyntaxKind_eqb andb].
  - destruct n; [discriminate Hlast | reflexivity].
  - reflexivity.
  - reflexivity.
Qed.

Lemma isNodeExportedOrPublic_false (node : Node) :
  isNodeExportedOrPublic node = false
  <-> bitwiseAnd (combinedModifierFlags node) ModifierFlags_Export = 0%Z
      /\ bitwiseAnd (combinedModifierFlags node) ModifierFlags_Public = 0%Z.
Proof.
  unfold isNodeExportedOrPublic. cbv zeta.
  rewrite orb_false_iff, !negb_false_iff, !Z.eqb_eq. reflexivity.
Qed.

Lemma addDocEntry_first (symbol : Symbol) :
  addDocEntry checker (Some symbol) []
  = (details <- serializeSymbol checker symbol ;; Ok [details]).
Proof. reflexivity. Qed.

Lemma serializeSymbol_Ok (symbol : Symbol) (t : TsType) :
  getTypeOfSymbolAtLocation checker symbol (valueDeclaration symbol) = Ok t ->
  serializeSymbol checker symbol = Ok (symbolEntry checker symbol t).
Proof. intros H. unfold serializeSymbol. rewrite H. reflexivity. Qed.

Lemma serializeSymbol_inv (symbol : Symbol) (entry : DocEntry) :
  serializeSymbol checker symbol = Ok entry ->
  exists t,
    getTypeOfSymbolAtLocation checker symbol (valueDeclaration symbol) = Ok t
    /\ entry = symbolEntry checker symbol t.
Proof.
  unfold serializeSymbol. intros H. apply bind_Ok in H as (t & Ht & H).
  exists t. split; [exact Ht | ]. injection H as <-. reflexivity.
Qed.

Lemma serializeClass_inv (symbol : Symbol) (entry : DocEntry) :
  serializeClass checker symbol = Ok entry ->
  exists t signatures,
    entry = with_constructors (symbolEntry checker symbol t) (Some signatures).
Proof.
  unfold serializeClass. intros H.
  apply bind_Ok in H as (details & Hdetails & H).
  apply bind_Ok in H as (t' & _ & H).
  apply bind_Ok in H as (signatures & _ & H).
  apply serializeSymbol_inv in Hdetails as (t & _ & ->).
  exists t, signatures. congruence.
Qed.

(** The loops of [visit] and of [generateDocumentation], results first. *)
Lemma collectEntries_loop (nodes : list Node) (entries : list DocEntry) :
  forEachM (collectEntries checker) nodes entries
  = (perNode <- mapM (visit checker) nodes ;;
     Ok (entries ++ List.concat perNode)%list).
Proof.
  unfold collectEntries. rewrite forEachM_collect.
  destruct (mapM (visit checker) nodes) as [rs|e]; simpl; [|reflexivity].
  rewrite fold_left_push. reflexivity.
Qed.

Lemma push_methods_all (serialized : DocEntry) (perNode : list (list DocEntry))
    (ms : list DocEntry) :
  fold_left push_methods perNode (with_methods serialized (Some ms))
  = with_methods serialized (Some (ms ++ List.concat perNode)%list).
Proof.
  revert ms. induction perNode as [|r rs IH]; intros ms; simpl.
  - rewrite app_nil_r. reflexivity.
  - change (push_methods (with_methods serialized (Some ms)) r)
      with (with_methods serialized (Some (push ms r))).
    rewrite IH. unfold push. rewrite app_assoc. reflexivity.
Qed.

Lemma collectMethods_loop (nodes : list Node) (serialized : DocEntry) :
  forEachM (collectMethods checker) nodes (with_methods serialized (Some []))
  = (perNode <- mapM (visit checker) nodes ;;
     Ok (with_methods serialized (Some (List.concat perNode)))).
Proof.
  unfold collectMethods. rewrite forEachM_collect.
  destruct (mapM (visit checker) nodes) as [rs|e]; simpl; [|reflexivity].
  rewrite push_methods_all. reflexivity.
Qed.

Lemma mapM_visit_hidden (nodes : list Node) :
  Forall hidden nodes ->
  mapM (visit checker) nodes = Ok (map (fun _ => []) nodes).
Proof.
  intros H. apply mapM_Ok_all. intros node Hin.
  apply visit_hidden. rewrite Forall_forall in H. exact (H node Hin).
Qed.

Lemma concat_nils {A B : Type} (l : list A) :
  List.concat (map (fun _ => @nil B) l) = [].
Proof. induction l as [|a l IH]; simpl; [reflexivity | exact IH]. Qed.

Lemma mapM_app {A B : Type} (f : A -> result B) (l1 l2 : list A) :
  mapM f (l1 ++ l2)%list
  = (r1 <- mapM f l1 ;; r2 <- mapM f l2 ;; Ok (r1 ++ r2)%list).
Proof.
  induction l1 as [|a l1 IH]; simpl.
  - destruct (mapM f l2); reflexivity.
  - destruct (f a) as [b|e]; simpl; [|reflexivity].
    rewrite IH. destruct (mapM f l1) as [r1|e]; simpl; [|reflexivity].
    destruct (mapM f l2); reflexivity.
Qed.

End Visiting.

Section Extraction.
Context {ts : TypeScript}.

Lemma generateDocumentation_extractProgram (fileNames : list string)
    (options : CompilerOptions) :
  generateDocumentation fileNames options
  = extractProgram (createProgram fileNames options).
Proof.
  unfold generateDocumentation, extractProgram. cbv zeta.
  set (checker := getTypeChecker (createProgram fileNames options)).
  set (files := filter _ _).
  rewrite (forEachM_ext _
             (fun sourceFile result =>
                r <- extractFile checker sourceFile ;; Ok (push result r))).
  - rewrite forEachM_collect.
    destruct (mapM (extractFile checker) files) as [perFile|e]; simpl; [|reflexivity].
    rewrite fold_left_push. reflexivity.
  - intros sourceFile _ acc. unfold extractFile.
    rewrite (forEachM_collect (visit checker)
               (fun acc r => push acc (map (fun entry =>
                  with_fileName entry (Some (sourceFile_fileName sourceFile))) r))).
    destruct (mapM (visit checker) (sourceFile_children sourceFile)) as [rs|e];
      simpl; [|reflexivity].
    rewrite fold_left_push_map. reflexivity.
Qed.

End Extraction.

(** ** The visibility gate *)

(** C3.  [visit] returns the empty sequence for every node whose combined
    modifier flags contain neither [Export] nor [Public]; extraction over a
    program whose files hold only such top-level nodes yields the empty sequence;
    and a node that contributes a record carries one of the two flags. *)
Theorem visit_gate {ts : TypeScript} :
  (forall checker node,
      bitwiseAnd (combinedModifierFlags node) ModifierFlags_Export = 0%Z ->
      bitwiseAnd (combinedModifierFlags node) ModifierFlags_Public = 0%Z ->
      visit checker node = Ok [])
  /\ (forall fileNames options,
         (forall sourceFile node,
             In sourceFile (getSourceFiles (createProgram fileNames options)) ->
             In node (sourceFile_children sourceFile) ->
             bitwiseAnd (combinedModifierFlags node) ModifierFlags_Export = 0%Z
             /\ bitwiseAnd (combinedModifierFlags node) ModifierFlags_Public = 0%Z) ->
         generateDocumentation fileNames options = Ok [])
  /\ (forall checker node entry entries,
         visit checker node = Ok (entry :: entries) ->
         bitwiseAnd (combinedModifierFlags node) ModifierFlags_Export <> 0%Z
         \/ bitwiseAnd (combinedModifierFlags node) ModifierFlags_Public <> 0%Z).
Proof.
  assert (Hgate : forall checker node,
             bitwiseAnd (combinedModifierFlags node) ModifierFlags_Export = 0%Z ->
             bitwiseAnd (combinedModifierFlags node) ModifierFlags_Public = 0%Z ->
             visit checker node = Ok []).
  { intros checker node HE HP. apply visit_hidden.
    apply isNodeExportedOrPublic_false. split; assumption. }
  split; [exact Hgate|]. split.
  - intros fileNames options Hall.
    rewrite generateDocumentation_extractProgram. unfold extractProgram.
    set (checker := getTypeChecker (createProgram fileNames options)).
    rewrite (mapM_Ok_all _ (fun _ => [])).
    + simpl. rewrite concat_nils. reflexivity.
    + intros sourceFile Hin. apply filter_In in Hin as [Hin _].
      unfold extractFile. rewrite (mapM_Ok_all _ (fun _ => [])).
      * simpl. rewrite concat_nils. reflexivity.
      * intros node Hnode. destruct (Hall sourceFile node Hin Hnode) as [HE HP].
        apply Hgate; assumption.
  - intros checker node entry entries Hvisit.
    destruct (Z.eq_dec (bitwiseAnd (combinedModifierFlags node) ModifierFlags_Export) 0)
      as [HE|HE]; [|left; exact HE].
    destruct (Z.eq_dec (bitwiseAnd (combinedModifierFlags node) ModifierFlags_Public) 0)
      as [HP|HP]; [|right; exact HP].
    rewrite (Hgate checker node HE HP) in Hvisit. discriminate Hvisit.
Qed.

(** The file [hidden.ts] yields nothing, and so does its function [h]. *)
Lemma visit_gate_witness :
  @generateDocumentation Samples.typescript ["hidden.ts"] tt = Ok []
  /\ @visit Samples.typescript Samples.checker Samples.h_declaration = Ok [].
Proof.
  split.
  - apply (proj1 (proj2 (@visit_gate Samples.typescript))).
    intros sourceFile node Hfile Hnode.
    vm_compute in Hfile. destruct Hfile as [<-|[]].
    destruct Hnode as [<-|[<-|[]]]; split; reflexivity.
  - apply (proj1 (@visit_gate Samples.typescript)); reflexivity.
Defined.

(** ** Variable statements *)

(** C8, as the claim states it, fails: the statement whose declaration carries
    no symbol is skipped by the guard of [addDocEntry], while the reading with no
    guard would throw as the empty declaration list does. *)
Lemma variableStatement_unguarded_counterexample :
  @visit Samples.typescript Samples.checker Samples.unbound_statement = Ok []
  /\ @variableStatement_unguarded Samples.typescript Samples.checker
       Samples.unbound_statement = Throw TypeError
  /\ @visit Samples.typescript Samples.checker Samples.unbound_statement
     <> @variableStatement_unguarded Samples.typescript Samples.checker
          Samples.unbound_statement
  /\ @visit Samples.typescript Samples.checker Samples.empty_statement
     = Throw TypeError.
Proof.
  split; [reflexivity|]. split; [reflexivity|]. split; [|reflexivity].
  intros H. vm_compute in H. discriminate H.
Qed.

(** C8, amended.  For an exported variable statement [visit] takes the first
    declaration of the list and reads the symbol bound on it; a present symbol is
    serialized and appended; an absent symbol is caught by the guard of
    [addDocEntry] and adds nothing; an empty declaration list is not guarded and
    throws. *)
Theorem visit_variableStatement {ts : TypeScript} (checker : TypeChecker) (node : Node) :
  isNodeExportedOrPublic node = true ->
  kind node = VariableStatement ->
  visit checker node = variableStatement_guarded checker node
  /\ (declarations node = [] -> visit checker node = Throw TypeError)
  /\ (forall first others,
         declarations node = first :: others ->
         declaration_symbol first = None ->
         visit checker node = Ok [])
  /\ (forall first others symbol,
         declarations node = first :: others ->
         declaration_symbol first = Some symbol ->
         visit checker node
         = (details <- serializeSymbol checker symbol ;; Ok [details])).
Proof.
  intros Hgate Hkind.
  assert (Heq : visit checker node = variableStatement_guarded checker node).
  { rewrite (visit_variable checker node Hgate Hkind).
    unfold variableStatement_guarded.
    destruct (declarations node) as [|first others]; [reflexivity|].
    destruct (declaration_symbol first); reflexivity. }
  split; [exact Heq|]. rewrite Heq. unfold variableStatement_guarded.
  split; [|split].
  - intros ->. reflexivity.
  - intros first others -> ->. reflexivity.
  - intros first others symbol -> ->. reflexivity.
Qed.

(** The three sample statements: bound, unbound, empty. *)
Lemma visit_variableStatement_witness :
  @isNodeExportedOrPublic Samples.typescript Samples.unbound_statement = true
  /\ kind Samples.unbound_statement = VariableStatement
  /\ @visit Samples.typescript Samples.checker Samples.unbound_statement = Ok []
  /\ @visit Samples.typescript Samples.checker Samples.x_statement
     = Ok [@symbolEntry Samples.typescript Samples.checker Samples.x_symbol 101].
Proof.
  split; [reflexivity|]. split; [reflexivity|]. split.
  - exact (proj1 (proj2 (proj2
             (@visit_variableStatement Samples.typescript Samples.checker
                Samples.unbound_statement eq_refl eq_refl)))
             _ _ eq_refl eq_refl).
  - exact (proj2 (proj2 (proj2
             (@visit_variableStatement Samples.typescript Samples.checker
                Samples.x_statement eq_refl eq_refl)))
             _ _ _ eq_refl eq_refl).
Defined.

(** ** Function declarations *)

(** C2, as the claim states it, fails on [add.ts]: the one record extracted has
    neither a [parameters] nor a [returnType] field. *)
Lemma add_scenario_counterexample :
  ~ (exists entry typeString,
        @generateDocumentation Samples.typescript ["add.ts"] tt = Ok [entry]
        /\ describes_add typeString entry).
Proof.
  intros (entry & typeString & Hrun & _ & _ & (a & b & Hparameters & _) & _).
  vm_compute in Hrun. injection Hrun as <-. discriminate Hparameters.
Qed.

(** C2, amended.  For a program whose one source file starts with an exported
    function declaration, followed only by nodes that fail the gate, and whose
    name resolves to a symbol, extraction yields exactly one record: the one
    [serializeSymbol] builds, stamped with the file's path.  Its name is the
    symbol's, its type the string form of the symbol's resolved type, and its
    [parameters] and [returnType] fields are absent. *)
Theorem generateDocumentation_single_function {ts : TypeScript}
    (fileNames : list string) (options : CompilerOptions)
    (sourceFile : SourceFile) (declaration : Node) (rest : list Node)
    (symbol : Symbol) (t : TsType) :
  let program := createProgram fileNames options in
  let checker := getTypeChecker program in
  filter (fun file => negb (isDeclarationFile file)) (getSourceFiles program)
  = [sourceFile] ->
  sourceFile_children sourceFile = declaration :: rest ->
  Forall hidden rest ->
  isNodeExportedOrPublic declaration = true ->
  kind declaration = FunctionDeclaration ->
  getSymbolAtLocation checker
    (Some (nullish (node_name declaration) (node_id declaration))) = Some symbol ->
  getTypeOfSymbolAtLocation checker symbol (valueDeclaration symbol) = Ok t ->
  exists entry,
    generateDocumentation fileNames options = Ok [entry]
    /\ entry = stamp sourceFile (symbolEntry checker symbol t)
    /\ name entry = getName symbol
    /\ type entry = Some (typeToString checker t)
    /\ fileName entry = Some (sourceFile_fileName sourceFile)
    /\ parameters entry = None
    /\ returnType entry = None.
Proof.
  intros program checker Hfiles Hchildren Hrest Hgate Hkind Hsymbol Htype.
  exists (stamp sourceFile (symbolEntry checker symbol t)).
  split; [|repeat split].
  rewrite generateDocumentation_extractProgram. unfold extractProgram.
  fold program. fold checker. rewrite Hfiles. simpl.
  unfold extractFile. rewrite Hchildren. simpl.
  rewrite (visit_function checker declaration Hgate Hkind), Hsymbol.
  rewrite addDocEntry_first, (serializeSymbol_Ok checker symbol t Htype). simpl.
  rewrite (mapM_visit_hidden checker rest Hrest). simpl.
  rewrite concat_nils. reflexivity.
Qed.

(** The scenario of [add.ts]. *)
Lemma generateDocumentation_single_function_witness :
  exists entry,
    @generateDocumentation Samples.typescript ["add.ts"] tt = Ok [entry]
    /\ name entry = "add"
    /\ type entry = Some "(a: number, b: number) => number"
    /\ fileName entry = Some "add.ts"
    /\ parameters entry = None
    /\ returnType entry = None.
Proof.
  destruct (@generateDocumentation_single_function Samples.typescript
              ["add.ts"] tt Samples.add_file Samples.add_declaration
              [Samples.plain 8 None] (Samples.declared "add" 1) 100
              eq_refl eq_refl)
    as (entry & Hrun & -> & _).
  - repeat constructor.
  - reflexivity.
  - reflexivity.
  - reflexivity.
  - reflexivity.
  - exists (stamp Samples.add_file
              (@symbolEntry Samples.typescript Samples.checker
                 (Samples.declared "add" 1) 100)).
    split; [exact Hrun|]. repeat split.
Defined.

(** ** Classes *)

Lemma serializeClass_name {ts : TypeScript} (checker : TypeChecker) (symbol : Symbol)
    (serialized : DocEntry) :
  serializeClass checker symbol = Ok serialized -> name serialized = getName symbol.
Proof.
  intros H. apply serializeClass_inv in H as (t & signatures & ->). reflexivity.
Qed.

(** C4.  For a named, exported class whose name resolves to a symbol, [visit]
    yields one record: the serialized class with its [methods] set to the
    records of the class node's children, visited in order, the empty sequence
    when there is no child; the record is appended only after every child has
    been visited.  When exactly one child passes the gate and it is a method
    whose name resolves, the record is named after the class and its [methods]
    hold exactly the method's record, named after the method. *)
Theorem visit_class_methods {ts : TypeScript} (checker : TypeChecker) (class : Node)
    (nameOfClass : Location) (classSymbol : Symbol) (serialized : DocEntry) :
  isNodeExportedOrPublic class = true ->
  kind class = ClassDeclaration ->
  node_name class = Some nameOfClass ->
  getSymbolAtLocation checker (Some nameOfClass) = Some classSymbol ->
  serializeClass checker classSymbol = Ok serialized ->
  visit checker class
  = (classEntry <- forEachM (collectMethods checker) (children class)
                            (with_methods serialized (Some [])) ;;
     Ok [classEntry])
  /\ visit checker class
     = (perChild <- mapM (visit checker) (children class) ;;
        Ok [with_methods serialized (Some (List.concat perChild))])
  /\ name serialized = getName classSymbol
  /\ (children class = [] ->
      visit checker class = Ok [with_methods serialized (Some [])])
  /\ (forall before method after methodSymbol methodEntry,
         children class = (before ++ method :: after)%list ->
         Forall hidden before ->
         Forall hidden after ->
         isNodeExportedOrPublic method = true ->
         kind method = MethodDeclaration ->
         getSymbolAtLocation checker (node_name method) = Some methodSymbol ->
         serializeSymbol checker methodSymbol = Ok methodEntry ->
         exists classEntry,
           visit checker class = Ok [classEntry]
           /\ name classEntry = getName classSymbol
           /\ methods classEntry = Some [methodEntry]
           /\ name methodEntry = getName methodSymbol).
Proof.
  intros Hgate Hkind Hname Hsymbol Hserialized.
  assert (Hloop : visit checker class
                  = (classEntry <- forEachM (collectMethods checker) (children class)
                                            (with_methods serialized (Some [])) ;;
                     Ok [classEntry])).
  { rewrite (visit_class checker class nameOfClass Hgate Hkind Hname).
    rewrite Hsymbol, Hserialized. reflexivity. }
  assert (Heq : visit checker class
                = (perChild <- mapM (visit checker) (children class) ;;
                   Ok [with_methods serialized (Some (List.concat perChild))])).
  { rewrite Hloop, collectMethods_loop.
    destruct (mapM (visit checker) (children class)); reflexivity. }
  split; [exact Hloop|]. split; [exact Heq|]. split; [|split].
  - exact (serializeClass_name checker classSymbol serialized Hserialized).
  - intros Hnone. rewrite Heq, Hnone. reflexivity.
  - intros before method after methodSymbol methodEntry
      Hchildren Hbefore Hafter HgateM HkindM HsymbolM HentryM.
    exists (with_methods serialized (Some [methodEntry])).
    split; [|split; [|split]].
    + rewrite Heq, Hchildren, mapM_app.
      rewrite (mapM_visit_hidden checker before Hbefore). simpl.
      rewrite (visit_method checker method HgateM HkindM), HsymbolM.
      rewrite addDocEntry_first, HentryM. simpl.
      rewrite (mapM_visit_hidden checker after Hafter). simpl.
      rewrite concat_app. simpl. rewrite !concat_nils. reflexivity.
    + exact (serializeClass_name checker classSymbol serialized Hserialized).
    + reflexivity.
    + apply serializeSymbol_inv in HentryM as (t & _ & ->). reflexivity.
Qed.

(** The class [C] of [shape.ts] with its public method [m]. *)
Lemma visit_class_methods_witness :
  exists classEntry methodEntry,
    @visit Samples.typescript Samples.checker Samples.C_declaration = Ok [classEntry]
    /\ name classEntry = "C"
    /\ methods classEntry = Some [methodEntry]
    /\ name methodEntry = "m".
Proof.
  destruct (@visit_class_methods Samples.typescript Samples.checker
              Samples.C_declaration 11 (Samples.declared "C" 10)
              (with_constructors
                 (@symbolEntry Samples.typescript Samples.checker
                    (Samples.declared "C" 10) 110)
                 (Some [mkSignatureEntry (Some []) (Some "C") (Some "")]))
              eq_refl eq_refl eq_refl eq_refl eq_refl)
    as (_ & _ & _ & _ & Hmethod).
  destruct (Hmethod [Samples.plain 12 (Some 11); Samples.plain 11 (Some 11)]
              Samples.m_declaration [] (Samples.declared "m" 13)
              (@symbolEntry Samples.typescript Samples.checker
                 (Samples.declared "m" 13) 112)
              eq_refl)
    as (classEntry & Hvisit & HnameC & Hmethods & HnameM).
  - repeat constructor.
  - constructor.
  - reflexivity.
  - reflexivity.
  - reflexivity.
  - reflexivity.
  - exists classEntry,
      (@symbolEntry Samples.typescript Samples.checker (Samples.declared "m" 13) 112).
    repeat split; assumption.
Defined.

(** ** Namespaces *)

(** C5, where the code departs from it.  The records of a namespace are those
    of the children of the module declaration, and the functions a namespace
    wraps are not among them: they lie in the body, a block that carries no
    modifier and therefore fails the gate.  An exported module declaration
    whose children all fail the gate, as the keyword, the identifier and the
    body do, yields no record, whatever the body holds: neither one for itself
    nor one for a wrapped function. *)
Theorem visit_namespace_body_hidden {ts : TypeScript} (checker : TypeChecker)
    (namespace : Node) :
  isNodeExportedOrPublic namespace = true ->
  kind namespace = ModuleDeclaration ->
  Forall hidden (children namespace) ->
  visit checker namespace = Ok []
  /\ (forall fileNames options sourceFile,
         getTypeChecker (createProgram fileNames options) = checker ->
         filter (fun file => negb (isDeclarationFile file))
                (getSourceFiles (createProgram fileNames options)) = [sourceFile] ->
         sourceFile_children sourceFile = [namespace] ->
         generateDocumentation fileNames options = Ok []).
Proof.
  intros Hgate Hkind Hchildren.
  assert (Hvisit : visit checker namespace = Ok []).
  { rewrite (visit_module checker namespace Hgate Hkind), collectEntries_loop.
    rewrite (mapM_visit_hidden checker (children namespace) Hchildren). simpl.
    apply f_equal. apply concat_nils. }
  split; [exact Hvisit|].
  intros fileNames options sourceFile Hchecker Hfiles Hnodes.
  rewrite generateDocumentation_extractProgram. unfold extractProgram.
  rewrite Hfiles, Hchecker. simpl. unfold extractFile. rewrite Hnodes. simpl.
  rewrite Hvisit. reflexivity.
Qed.

(** [space.ts], the namespace [N] wrapping the exported functions [f] and [g]:
    nothing is extracted, although each function visited by itself gives its
    record. *)
Lemma visit_namespace_body_hidden_witness :
  @visit Samples.typescript Samples.checker Samples.N_declaration = Ok []
  /\ @generateDocumentation Samples.typescript ["space.ts"] tt = Ok []
  /\ @visit Samples.typescript Samples.checker Samples.f_declaration
     = Ok [@symbolEntry Samples.typescript Samples.checker (Samples.declared "f" 21) 113]
  /\ @visit Samples.typescript Samples.checker Samples.g_declaration
     = Ok [@symbolEntry Samples.typescript Samples.checker (Samples.declared "g" 23) 113].
Proof.
  destruct (@visit_namespace_body_hidden Samples.typescript Samples.checker
              Samples.N_declaration eq_refl eq_refl) as [Hvisit Hprogram].
  - repeat constructor.
  - split; [exact Hvisit|]. split.
    + exact (Hprogram ["space.ts"] tt Samples.space_file eq_refl eq_refl eq_refl).
    + split; reflexivity.
Defined.

(** ** The order of the records *)

(** Extraction is the concatenation, file by file and node by node, of what
    [visit] returns, each record stamped with the path of its file: the order
    of the files and, within a file, of the top-level nodes is kept, and
    nothing is merged by name (a node listed twice yields its records
    twice). *)
Theorem generateDocumentation_in_order {ts : TypeScript} :
  (forall fileNames options,
      generateDocumentation fileNames options
      = extractProgram (createProgram fileNames options))
  /\ (forall fileNames options files1 files2 records1 records2,
         filter (fun file => negb (isDeclarationFile file))
                (getSourceFiles (createProgram fileNames options))
         = (files1 ++ files2)%list ->
         mapM (extractFile (getTypeChecker (createProgram fileNames options))) files1
         = Ok records1 ->
         mapM (extractFile (getTypeChecker (createProgram fileNames options))) files2
         = Ok records2 ->
         generateDocumentation fileNames options
         = Ok (List.concat records1 ++ List.concat records2)%list)
  /\ (forall checker sourceFile nodes1 nodes2 records1 records2,
         sourceFile_children sourceFile = (nodes1 ++ nodes2)%list ->
         mapM (visit checker) nodes1 = Ok records1 ->
         mapM (visit checker) nodes2 = Ok records2 ->
         extractFile checker sourceFile
         = Ok (map (stamp sourceFile) (List.concat records1)
                 ++ map (stamp sourceFile) (List.concat records2))%list)
  /\ (forall fileNames options sourceFile node entries,
         filter (fun file => negb (isDeclarationFile file))
                (getSourceFiles (createProgram fileNames options)) = [sourceFile] ->
         sourceFile_children sourceFile = [node; node] ->
         visit (getTypeChecker (createProgram fileNames options)) node = Ok entries ->
         generateDocumentation fileNames options
         = Ok (map (stamp sourceFile) (entries ++ entries)%list)).
Proof.
  split; [|split; [|split]].
  - exact generateDocumentation_extractProgram.
  - intros fileNames options files1 files2 records1 records2 Hfiles H1 H2.
    rewrite generateDocumentation_extractProgram. unfold extractProgram.
    rewrite Hfiles, mapM_app, H1, H2. simpl. rewrite concat_app. reflexivity.
  - intros checker sourceFile nodes1 nodes2 records1 records2 Hchildren H1 H2.
    unfold extractFile. rewrite Hchildren, mapM_app, H1, H2. simpl.
    rewrite concat_app, map_app. reflexivity.
  - intros fileNames options sourceFile node entries Hfiles Hchildren Hvisit.
    rewrite generateDocumentation_extractProgram. unfold extractProgram.
    rewrite Hfiles. simpl. unfold extractFile. rewrite Hchildren. simpl.
    rewrite Hvisit. simpl. rewrite app_nil_r, app_nil_r. reflexivity.
Qed.

(** [shape.ts] then [add.ts]: the record of [C] comes before that of [add];
    asked for in the other order, [add] comes first. *)
Lemma generateDocumentation_in_order_witness :
  (exists fromShape fromAdd,
      @generateDocumentation Samples.typescript ["shape.ts"; "add.ts"] tt
      = Ok (fromShape ++ fromAdd)%list
      /\ map name fromShape = ["C"]
      /\ map name fromAdd = ["add"])
  /\ (exists fromAdd fromShape,
         @generateDocumentation Samples.typescript ["add.ts"; "shape.ts"] tt
         = Ok (fromAdd ++ fromShape)%list
         /\ map name fromAdd = ["add"]
         /\ map name fromShape = ["C"]).
Proof.
  destruct (@generateDocumentation_in_order Samples.typescript) as (_ & Hfiles & _).
  destruct (mapM (@extractFile Samples.typescript Samples.checker) [Samples.shape_file])
    as [shape|e] eqn:Hshape; [|vm_compute in Hshape; discriminate Hshape].
  destruct (mapM (@extractFile Samples.typescript Samples.checker) [Samples.add_file])
    as [add|e] eqn:Hadd; [|vm_compute in Hadd; discriminate Hadd].
  split.
  - exists (List.concat shape), (List.concat add). split.
    + exact (Hfiles ["shape.ts"; "add.ts"] tt [Samples.shape_file] [Samples.add_file]
               shape add eq_refl Hshape Hadd).
    + vm_compute in Hshape. injection Hshape as <-.
      vm_compute in Hadd. injection Hadd as <-. split; reflexivity.
  - exists (List.concat add), (List.concat shape). split.
    + exact (Hfiles ["add.ts"; "shape.ts"] tt [Samples.add_file] [Samples.shape_file]
               add shape eq_refl Hadd Hshape).
    + vm_compute in Hshape. injection Hshape as <-.
      vm_compute in Hadd. injection Hadd as <-. split; reflexivity.
Defined.

(** ** Unresolved names *)

Lemma push_methods_nothing (classEntry : DocEntry) :
  push_methods classEntry [] = classEntry.
Proof.
  destruct classEntry as [n f d t c p m r j k]. unfold push_methods, with_methods, push.
  simpl. destruct m as [ms|]; [|reflexivity]. rewrite app_nil_r. reflexivity.
Qed.

Lemma push_nothing {A : Type} (array : list A) : push array [] = array.
Proof. unfold push. apply app_nil_r. Qed.

Lemma visit_unresolved {ts : TypeScript} (checker : TypeChecker) (node : Node) :
  unresolved checker node -> visit checker node = Ok [].
Proof.
  intros Hnode.
  destruct (isNodeExportedOrPublic node) eqn:Hgate;
    [|exact (visit_hidden checker node Hgate)].
  destruct Hnode as [nameOfClass Hkind Hname Hnone | Hkind Hnone | Hkind Hnone
                    | arrowFunc Hlast Hfound Hnone].
  - rewrite (visit_class checker node nameOfClass Hgate Hkind Hname), Hnone.
    reflexivity.
  - rewrite (visit_method checker node Hgate Hkind), Hnone. reflexivity.
  - rewrite (visit_function checker node Hgate Hkind), Hnone. reflexivity.
  - rewrite (visit_other checker node Hgate Hlast), Hfound, Hnone. reflexivity.
Qed.

(** C6.  A node of the class, method, function or arrow-function branch whose
    name the checker resolves to no symbol adds no record and raises nothing:
    [visit] returns the empty sequence.  The rest of the traversal is as if the
    node were not there: below a namespace or a class, and among the top-level
    nodes of a file, dropping the node changes nothing. *)
Theorem visit_unresolved_skipped {ts : TypeScript} (checker : TypeChecker) (node : Node) :
  unresolved checker node ->
  visit checker node = Ok []
  /\ (forall container before after,
         isContainer container ->
         visit checker (with_children container (before ++ node :: after)%list)
         = visit checker (with_children container (before ++ after)%list))
  /\ (forall fileNames options fileNames' options' files files' path declarationFile
             before after,
         createProgram fileNames options
         = mkProgram checker
             (files ++ mkSourceFile path declarationFile (before ++ node :: after)
                    :: files')%list ->
         createProgram fileNames' options'
         = mkProgram checker
             (files ++ mkSourceFile path declarationFile (before ++ after)
                    :: files')%list ->
         generateDocumentation fileNames options
         = generateDocumentation fileNames' options').
Proof.
  intros Hnode. pose proof (visit_unresolved checker node Hnode) as Hvisit.
  split; [exact Hvisit|]. split.
  - intros container before after Hcontainer.
    set (with_node := with_children container (before ++ node :: after)%list).
    set (without := with_children container (before ++ after)%list).
    destruct (isNodeExportedOrPublic with_node) eqn:Hgate.
    + assert (Hgate' : isNodeExportedOrPublic without = true) by exact Hgate.
      destruct Hcontainer as [Hkind | [Hkind Hname]].
      * rewrite (visit_module checker with_node Hgate Hkind).
        rewrite (visit_module checker without Hgate' Hkind).
        apply forEachM_skip. intros acc. unfold collectEntries.
        rewrite Hvisit. simpl. rewrite push_nothing. reflexivity.
      * destruct (node_name container) as [nameOfClass|] eqn:Hsome;
          [|contradiction Hname; reflexivity].
        rewrite (visit_class checker with_node nameOfClass Hgate Hkind Hsome).
        rewrite (visit_class checker without nameOfClass Hgate' Hkind Hsome).
        destruct (getSymbolAtLocation checker (Some nameOfClass)); [|reflexivity].
        destruct (serializeClass checker s) as [serialized|e]; [|reflexivity].
        simpl. f_equal.
        apply forEachM_skip. intros acc. unfold collectMethods.
        rewrite Hvisit. simpl. rewrite push_methods_nothing. reflexivity.
    + rewrite (visit_hidden checker with_node Hgate).
      rewrite (visit_hidden checker without Hgate). reflexivity.
  - intros fileNames options fileNames' options' files files' path declarationFile
      before after Hwith Hwithout.
    unfold generateDocumentation. cbv zeta. rewrite Hwith, Hwithout.
    cbn [getTypeChecker getSourceFiles]. rewrite !filter_app.
    cbn [filter isDeclarationFile].
    destruct declarationFile; cbn [negb]; [reflexivity|].
    rewrite !forEachM_app.
    destruct (forEachM _ (filter _ files) []) as [acc|e]; [|reflexivity].
    cbn [bind forEachM sourceFile_children sourceFile_fileName].
    rewrite (forEachM_skip _ node before after); [reflexivity|].
    intros acc'. rewrite Hvisit. simpl. rewrite push_nothing. reflexivity.
Qed.

(** The four sample nodes with unresolved names, each skipped; the class [C]
    with the unresolved method added among its members gives what it gives
    without it. *)
Lemma visit_unresolved_skipped_witness :
  @visit Samples.typescript Samples.checker Samples.ghost_class = Ok []
  /\ @visit Samples.typescript Samples.checker Samples.ghost_method = Ok []
  /\ @visit Samples.typescript Samples.checker Samples.ghost_function = Ok []
  /\ @visit Samples.typescript Samples.checker Samples.ghost_arrow = Ok []
  /\ @visit Samples.typescript Samples.checker
       (with_children Samples.C_declaration
          [Samples.plain 12 (Some 11); Samples.plain 11 (Some 11);
           Samples.ghost_method; Samples.m_declaration])
     = @visit Samples.typescript Samples.checker Samples.C_declaration.
Proof.
  split; [|split; [|split; [|split]]].
  - apply (@visit_unresolved_skipped Samples.typescript).
    apply (unresolved_class _ _ 52); reflexivity.
  - apply (@visit_unresolved_skipped Samples.typescript).
    apply unresolved_method; reflexivity.
  - apply (@visit_unresolved_skipped Samples.typescript).
    apply unresolved_function; reflexivity.
  - apply (@visit_unresolved_skipped Samples.typescript).
    apply (unresolved_arrow _ _ (mkNode 59 ArrowFunction 0 None None []
                                   [Samples.plain 60 None])); reflexivity.
  - apply (proj1 (proj2 (@visit_unresolved_skipped Samples.typescript Samples.checker
                           Samples.ghost_method
                           (unresolved_method Samples.checker Samples.ghost_method
                              eq_refl eq_refl)))
             Samples.C_declaration
             [Samples.plain 12 (Some 11); Samples.plain 11 (Some 11)]
             [Samples.m_declaration]).
    right. split; [reflexivity | discriminate].
Defined.

(** ** Symbols with no declaring location *)

Lemma mapM_Throw {A B : Type} (f : A -> result B) (a : A) (l : list A) :
  In a l -> (exists e, f a = Throw e) -> exists e, mapM f l = Throw e.
Proof.
  induction l as [|b l IH]; intros Hin Ha; simpl.
  - destruct Hin.
  - destruct Hin as [->|Hin].
    + destruct Ha as [e ->]. exists e. reflexivity.
    + destruct (f b) as [r|e]; simpl; [|exists e; reflexivity].
      destruct (IH Hin Ha) as [e ->]. exists e. reflexivity.
Qed.

Lemma mapM_Ok_each {A B : Type} (f : A -> result B) (l : list A) :
  (forall a, In a l -> exists b, f a = Ok b) -> exists bs, mapM f l = Ok bs.
Proof.
  induction l as [|a l IH]; intros H; simpl.
  - exists []. reflexivity.
  - destruct (H a (or_introl eq_refl)) as [b ->].
    destruct (IH (fun c Hc => H c (or_intror Hc))) as [bs ->].
    exists (b :: bs). reflexivity.
Qed.

Section CheckerThrows.
Context {ts : TypeScript}.
Variable checker : TypeChecker.

Lemma serializeSymbol_Throw (symbol : Symbol) (e : exn) :
  getTypeOfSymbolAtLocation checker symbol (valueDeclaration symbol) = Throw e ->
  serializeSymbol checker symbol = Throw e.
Proof. intros H. unfold serializeSymbol. rewrite H. reflexivity. Qed.

Lemma serializeClass_Throw (symbol : Symbol) (e : exn) :
  getTypeOfSymbolAtLocation checker symbol (valueDeclaration symbol) = Throw e ->
  serializeClass checker symbol = Throw e.
Proof.
  intros H. unfold serializeClass. rewrite (serializeSymbol_Throw symbol e H).
  reflexivity.
Qed.

Lemma addDocEntry_Throw (symbol : Symbol) (entries : list DocEntry) (e : exn) :
  getTypeOfSymbolAtLocation checker symbol (valueDeclaration symbol) = Throw e ->
  addDocEntry checker (Some symbol) entries = Throw e.
Proof.
  intros H. unfold addDocEntry. rewrite (serializeSymbol_Throw symbol e H).
  reflexivity.
Qed.

Lemma visit_Throw (node : Node) (symbol : Symbol) :
  reaches checker node symbol ->
  (exists e,
      getTypeOfSymbolAtLocation checker symbol (valueDeclaration symbol) = Throw e) ->
  exists e, visit checker node = Throw e.
Proof.
  intros Hreaches [thrown Hthrown].
  induction Hreaches as
    [ node nameOfClass symbol Hgate Hkind Hname Hsymbol
    | node nameOfClass classSymbol t signature symbol Hgate Hkind Hname Hsymbol
        Htype Hsignature Hparameter
    | node symbol Hgate Hkind Hsymbol
    | node symbol Hgate Hkind Hsymbol
    | node first others symbol Hgate Hkind Hdeclarations Hsymbol
    | node arrowFunc symbol Hgate Hlast Hfound Hsymbol
    | node nameOfClass classSymbol child symbol Hgate Hkind Hname Hsymbol Hchild _ IH
    | node child symbol Hgate Hkind Hchild _ IH ].
  - rewrite (visit_class checker node nameOfClass Hgate Hkind Hname), Hsymbol.
    rewrite (serializeClass_Throw symbol thrown Hthrown).
    exists thrown. reflexivity.
  - rewrite (visit_class checker node nameOfClass Hgate Hkind Hname), Hsymbol.
    unfold serializeClass.
    rewrite (serializeSymbol_Ok checker classSymbol t Htype), Htype.
    cbn [bind].
    destruct (mapM_Throw (serializeSignature checker) signature
                (getConstructSignatures checker t) Hsignature) as [e ->].
    + unfold serializeSignature.
      destruct (mapM_Throw (serializeSymbol checker) symbol
                  (signature_parameters signature) Hparameter
                  (ex_intro _ thrown (serializeSymbol_Throw symbol thrown Hthrown)))
        as [e ->].
      exists e. reflexivity.
    + exists e. reflexivity.
  - rewrite (visit_method checker node Hgate Hkind), Hsymbol.
    exists thrown. exact (addDocEntry_Throw symbol [] thrown Hthrown).
  - rewrite (visit_function checker node Hgate Hkind), Hsymbol.
    exists thrown. exact (addDocEntry_Throw symbol [] thrown Hthrown).
  - rewrite (visit_variable checker node Hgate Hkind), Hdeclarations, Hsymbol.
    exists thrown. exact (addDocEntry_Throw symbol [] thrown Hthrown).
  - rewrite (visit_other checker node Hgate Hlast), Hfound, Hsymbol.
    exists thrown. exact (addDocEntry_Throw symbol [] thrown Hthrown).
  - rewrite (visit_class checker node nameOfClass Hgate Hkind Hname), Hsymbol.
    destruct (serializeClass checker classSymbol) as [serialized|e];
      [|exists e; reflexivity].
    cbn [bind].
    destruct (forEachM_Throw (collectMethods checker) child (children node) Hchild)
      with (acc := with_methods serialized (Some [])) as [e ->].
    + intros acc. unfold collectMethods.
      destruct (IH Hthrown) as [e ->]. exists e. reflexivity.
    + exists e. reflexivity.
  - rewrite (visit_module checker node Hgate Hkind).
    apply (forEachM_Throw (collectEntries checker) child (children node) Hchild).
    intros acc. unfold collectEntries.
    destruct (IH Hthrown) as [e ->]. exists e. reflexivity.
Qed.

End CheckerThrows.

(** C7, as the claim states it, fails: the symbol [orphan] has no declaring
    location, and [serializeSymbol] returns its record, with the type the
    checker answers ([any]); the extraction of [add.ts] and [orphan.ts] is not
    aborted and returns both records. *)
Lemma serializeSymbol_faults_counterexample :
  valueDeclaration Samples.orphan_symbol = None
  /\ @serializeSymbol Samples.typescript Samples.checker Samples.orphan_symbol
     = Ok (@symbolEntry Samples.typescript Samples.checker Samples.orphan_symbol 0)
  /\ ~ @faults_without_location Samples.typescript Samples.checker
  /\ exists fromAdd fromOrphan,
       @generateDocumentation Samples.typescript ["add.ts"; "orphan.ts"] tt
       = Ok [fromAdd; fromOrphan]
       /\ name fromAdd = "add"
       /\ name fromOrphan = "orphan"
       /\ type fromOrphan = Some "any".
Proof.
  split; [reflexivity|]. split; [reflexivity|]. split.
  - intros Hfaults. destruct (Hfaults Samples.orphan_symbol eq_refl) as [e He].
    vm_compute in He. discriminate He.
  - eexists. eexists. split; [vm_compute; reflexivity|]. repeat split.
Qed.

(** C7, amended.  [serializeSymbol] (and hence [serializeClass]) hands the
    symbol's [valueDeclaration] to the checker's type query with no check
    before it and without dereferencing it.  Whenever the query answers, for a
    symbol with a declaring location or without one, it returns the record
    normally, with the string form of the answered type, and [visit] appends it:
    nothing faults.  It throws only the exception the query itself throws; no
    caller catches an exception, so [visit] then throws at every node from which
    the symbol is reached, and an exception of [visit] at any top-level node of
    any file aborts [generateDocumentation] for all files. *)
Theorem serializeSymbol_location_unchecked {ts : TypeScript} (checker : TypeChecker) :
  (forall symbol t,
      getTypeOfSymbolAtLocation checker symbol (valueDeclaration symbol) = Ok t ->
      exists entry,
        serializeSymbol checker symbol = Ok entry
        /\ name entry = getName symbol
        /\ type entry = Some (typeToString checker t))
  /\ (Traversal.answers_always checker ->
      forall symbol,
        (exists entry,
            serializeSymbol checker symbol = Ok entry /\ name entry = getName symbol)
        /\ (exists entry,
               serializeClass checker symbol = Ok entry /\ name entry = getName symbol))
  /\ (Traversal.answers_always checker ->
      forall node symbol,
        isNodeExportedOrPublic node = true ->
        kind node = FunctionDeclaration ->
        getSymbolAtLocation checker (Some (nullish (node_name node) (node_id node)))
        = Some symbol ->
        exists entry,
          visit checker node = Ok [entry] /\ name entry = getName symbol)
  /\ (forall symbol e,
         getTypeOfSymbolAtLocation checker symbol (valueDeclaration symbol) = Throw e ->
         serializeSymbol checker symbol = Throw e
         /\ serializeClass checker symbol = Throw e)
  /\ (forall node symbol,
         reaches checker node symbol ->
         (exists e,
             getTypeOfSymbolAtLocation checker symbol (valueDeclaration symbol)
             = Throw e) ->
         exists e, visit checker node = Throw e)
  /\ (forall fileNames options sourceFile node,
         getTypeChecker (createProgram fileNames options) = checker ->
         In sourceFile (getSourceFiles (createProgram fileNames options)) ->
         isDeclarationFile sourceFile = false ->
         In node (sourceFile_children sourceFile) ->
         (exists e, visit checker node = Throw e) ->
         exists e, generateDocumentation fileNames options = Throw e).
Proof.
  split; [|split; [|split; [|split; [|split]]]].
  - intros symbol t Ht. exists (symbolEntry checker symbol t).
    split; [exact (serializeSymbol_Ok checker symbol t Ht) | split; reflexivity].
  - intros Hanswers symbol. split.
    + destruct (Hanswers symbol (valueDeclaration symbol)) as [t Ht].
      exists (symbolEntry checker symbol t).
      split; [exact (serializeSymbol_Ok checker symbol t Ht) | reflexivity].
    + destruct (Hanswers symbol (valueDeclaration symbol)) as [t Ht].
      destruct (mapM_Ok_each (serializeSignature checker)
                  (getConstructSignatures checker t)) as [signatures Hsignatures].
      { intros signature _. unfold serializeSignature.
        destruct (mapM_Ok_each (serializeSymbol checker)
                    (signature_parameters signature)) as [params ->].
        - intros parameter _.
          destruct (Hanswers parameter (valueDeclaration parameter)) as [t' Ht'].
          exists (symbolEntry checker parameter t').
          exact (serializeSymbol_Ok checker parameter t' Ht').
        - eexists. reflexivity. }
      exists (with_constructors (symbolEntry checker symbol t) (Some signatures)).
      split; [|reflexivity].
      unfold serializeClass.
      rewrite (serializeSymbol_Ok checker symbol t Ht), Ht. cbn [bind].
      rewrite Hsignatures. reflexivity.
  - intros Hanswers node symbol Hgate Hkind Hsymbol.
    destruct (Hanswers symbol (valueDeclaration symbol)) as [t Ht].
    exists (symbolEntry checker symbol t). split; [|reflexivity].
    rewrite (visit_function checker node Hgate Hkind), Hsymbol, addDocEntry_first.
    rewrite (serializeSymbol_Ok checker symbol t Ht). reflexivity.
  - intros symbol e He. split.
    + exact (serializeSymbol_Throw checker symbol e He).
    + exact (serializeClass_Throw checker symbol e He).
  - exact (visit_Throw checker).
  - intros fileNames options sourceFile node Hchecker Hfile Hsource Hnode [e He].
    unfold generateDocumentation. cbv zeta. rewrite Hchecker.
    apply (forEachM_Throw _ sourceFile).
    + apply filter_In. split; [exact Hfile|]. rewrite Hsource. reflexivity.
    + intros acc. apply (forEachM_Throw _ node _ Hnode).
      intros acc'. rewrite He. exists e. reflexivity.
Qed.

(** The sample checker always answers: the function [orphan], whose symbol has
    no declaring location, gives its record.  The empty declaration list of
    [broken.ts] throws, and with it the extraction of [add.ts] and
    [broken.ts]. *)
Lemma serializeSymbol_location_unchecked_witness :
  Traversal.answers_always Samples.checker
  /\ valueDeclaration Samples.orphan_symbol = None
  /\ (exists entry,
         @serializeSymbol Samples.typescript Samples.checker Samples.orphan_symbol
         = Ok entry
         /\ name entry = "orphan"
         /\ type entry = Some "any")
  /\ (exists entry,
         @visit Samples.typescript Samples.checker Samples.orphan_function = Ok [entry]
         /\ name entry = "orphan")
  /\ (exists e,
         @generateDocumentation Samples.typescript ["add.ts"; "broken.ts"] tt = Throw e).
Proof.
  assert (Hanswers : Traversal.answers_always Samples.checker).
  { intros symbol [declaration|]; eexists; reflexivity. }
  destruct (@serializeSymbol_location_unchecked Samples.typescript Samples.checker)
    as (Hanswered & _ & Hfunction & _ & _ & Hprogram).
  split; [exact Hanswers|]. split; [reflexivity|]. split; [|split].
  - exact (Hanswered Samples.orphan_symbol 0 eq_refl).
  - exact (Hfunction Hanswers Samples.orphan_function Samples.orphan_symbol
             eq_refl eq_refl eq_refl).
  - apply (Hprogram ["add.ts"; "broken.ts"] tt Samples.broken_file
             Samples.empty_statement).
    + reflexivity.
    + vm_compute. right. left. reflexivity.
    + reflexivity.
    + left. reflexivity.
    + exists TypeError. reflexivity.
Defined.

(** ** The discriminant [doc_type] *)

Section Untagged.
Context {ts : TypeScript}.
Variable checker : TypeChecker.

Lemma addDocEntry_untagged (symbol : option Symbol) (entries entries' : list DocEntry) :
  Forall untagged entries ->
  addDocEntry checker symbol entries = Ok entries' ->
  Forall untagged entries'.
Proof.
  intros Hentries. unfold addDocEntry. destruct symbol as [symbol|].
  - intros H. apply bind_Ok in H as (details & Hdetails & [= <-]).
    apply serializeSymbol_inv in Hdetails as (t & _ & ->).
    unfold push. apply Forall_app. split; [exact Hentries|].
    constructor; [reflexivity | constructor].
  - intros [= <-]. exact Hentries.
Qed.

Lemma push_methods_untagged (classEntry : DocEntry) (docEntries : list DocEntry) :
  untagged classEntry -> untagged (push_methods classEntry docEntries).
Proof.
  unfold untagged, push_methods. destruct (methods classEntry); intros H; exact H.
Qed.

Lemma visit_untagged (node : Node) :
  forall entries, visit checker node = Ok entries -> Forall untagged entries.
Proof.
  induction node as [i k f n p ds cs IH] using Node_ind_children.
  intros entries Hvisit.
  set (node := mkNode i k f n p ds cs) in *.
  destruct (isNodeExportedOrPublic node) eqn:Hgate.
  2:{ rewrite (visit_hidden checker node Hgate) in Hvisit.
      injection Hvisit as <-. constructor. }
  assert (Hlast : takesLastBranch node = true -> Forall untagged entries).
  { intros Hlast. rewrite (visit_other checker node Hgate Hlast) in Hvisit.
    destruct (findDescendantArrowFunction node) as [arrowFunc|].
    - exact (addDocEntry_untagged _ [] entries (Forall_nil _) Hvisit).
    - injection Hvisit as <-. constructor. }
  destruct k eqn:Hkind.
  - destruct n as [nameOfClass|]; [|apply Hlast; reflexivity].
    rewrite (visit_class checker node nameOfClass Hgate eq_refl eq_refl) in Hvisit.
    destruct (getSymbolAtLocation checker (Some nameOfClass)) as [symbol|].
    + apply bind_Ok in Hvisit as (serialized & Hserialized & Hvisit).
      apply bind_Ok in Hvisit as (classEntry & Hloop & [= <-]).
      constructor; [|constructor].
      apply (forEachM_invariant untagged (collectMethods checker) (children node))
        with (acc := with_methods serialized (Some [])) (acc' := classEntry);
        [| | exact Hloop].
      * intros child _ acc acc' Hacc Hstep. unfold collectMethods in Hstep.
        apply bind_Ok in Hstep as (docEntries & _ & [= <-]).
        exact (push_methods_untagged acc docEntries Hacc).
      * apply serializeClass_inv in Hserialized as (t & signatures & ->). reflexivity.
    + injection Hvisit as <-. constructor.
  - rewrite (visit_module checker node Hgate eq_refl) in Hvisit.
    apply (forEachM_invariant (Forall untagged) (collectEntries checker) (children node))
      with (acc := []) (acc' := entries); [|constructor|exact Hvisit].
    intros child Hchild acc acc' Hacc Hstep. unfold collectEntries in Hstep.
    apply bind_Ok in Hstep as (docEntries & Hdoc & [= <-]).
    unfold push. apply Forall_app. split; [exact Hacc|].
    rewrite Forall_forall in IH. exact (IH child Hchild docEntries Hdoc).
  - rewrite (visit_method checker node Hgate eq_refl) in Hvisit.
    exact (addDocEntry_untagged _ [] entries (Forall_nil _) Hvisit).
  - rewrite (visit_function checker node Hgate eq_refl) in Hvisit.
    exact (addDocEntry_untagged _ [] entries (Forall_nil _) Hvisit).
  - rewrite (visit_variable checker node Hgate eq_refl) in Hvisit.
    destruct (declarations node) as [|first others]; [discriminate Hvisit|].
    exact (addDocEntry_untagged _ [] entries (Forall_nil _) Hvisit).
  - apply Hlast. reflexivity.
  - apply Hlast. reflexivity.
Qed.

End Untagged.

(** C10.  For every entry sequence in which no entry has a [doc_type],
    [documentationToMarkdown] returns the empty string: all three groups are
    empty, so no section is emitted.  Every sequence [generateDocumentation]
    returns is of this form, since no record built by [serializeSymbol],
    [serializeClass] or [visit] has the property. *)
Theorem documentationToMarkdown_untagged :
  (forall entries,
      Forall untagged entries ->
      filter (doc_type_is "function") entries = []
      /\ filter (doc_type_is "class") entries = []
      /\ filter (doc_type_is "const") entries = []
      /\ documentationToMarkdown entries = "")
  /\ (forall (ts : TypeScript) checker node entries,
         visit checker node = Ok entries -> Forall untagged entries)
  /\ (forall (ts : TypeScript) fileNames options entries,
         generateDocumentation fileNames options = Ok entries ->
         Forall untagged entries /\ documentationToMarkdown entries = "").
Proof.
  assert (Hrender : forall entries,
             Forall untagged entries ->
             filter (doc_type_is "function") entries = []
             /\ filter (doc_type_is "class") entries = []
             /\ filter (doc_type_is "const") entries = []
             /\ documentationToMarkdown entries = "").
  { intros entries Hentries. unfold documentationToMarkdown.
    rewrite !(untagged_group _ entries Hentries). repeat split. }
  split; [exact Hrender|]. split.
  - intros ts checker node. exact (visit_untagged checker node).
  - intros ts fileNames options entries Hrun.
    assert (Hentries : Forall untagged entries).
    { unfold generateDocumentation in Hrun. cbv zeta in Hrun.
      revert Hrun. apply forEachM_invariant; [|constructor].
      intros sourceFile _ acc acc' Hacc. apply forEachM_invariant; [|exact Hacc].
      intros node _ result result' Hresult Hstep.
      apply bind_Ok in Hstep as (docEntries & Hvisit & [= <-]).
      unfold push. apply Forall_app. split; [exact Hresult|].
      apply visit_untagged in Hvisit. rewrite Forall_forall in Hvisit.
      apply Forall_forall. intros stamped Hin.
      apply in_map_iff in Hin as (entry & <- & Hin). exact (Hvisit entry Hin). }
    split; [exact Hentries|]. apply Hrender. exact Hentries.
Qed.

(** What is extracted from [shape.ts] and from [add.ts] renders to nothing. *)
Lemma documentationToMarkdown_untagged_witness :
  exists entries,
    @generateDocumentation Samples.typescript ["shape.ts"; "add.ts"] tt = Ok entries
    /\ List.length entries = 2
    /\ Forall untagged entries
    /\ documentationToMarkdown entries = "".
Proof.
  destruct (@generateDocumentation Samples.typescript ["shape.ts"; "add.ts"] tt)
    as [entries|e] eqn:Hrun; [|vm_compute in Hrun; discriminate Hrun].
  exists entries. split; [reflexivity|]. split.
  - vm_compute in Hrun. injection Hrun as <-. reflexivity.
  - exact (proj2 (proj2 documentationToMarkdown_untagged)
             Samples.typescript ["shape.ts"; "add.ts"] tt entries Hrun).
Defined.

(** * Further properties of the extractor *)

Import Traversal.

(** ** The search for an arrow function *)

Lemma find_app_first {A : Type} (p : A -> bool) (l1 l2 : list A) :
  find p (l1 ++ l2)%list
  = match find p l1 with
    | Some a => Some a
    | None => find p l2
    end.
Proof.
  induction l1 as [|a l1 IH]; simpl; [reflexivity|].
  destruct (p a); [reflexivity | exact IH].
Qed.

Lemma firstDefined_find (search : Node -> option Node) (p : Node -> bool)
    (nodes : list Node) :
  Forall (fun node => search node = find p (descendants node)) nodes ->
  firstDefined search nodes = find p (flat_map descendants nodes).
Proof.
  induction 1 as [|node rest Hnode _ IH]; [reflexivity|].
  cbn [firstDefined flat_map]. rewrite find_app_first, <- Hnode.
  destruct (search node); [reflexivity | exact IH].
Qed.

Lemma findDescendantArrowFunction_find (node : Node) :
  findDescendantArrowFunction node = find isArrowFunction (descendants node).
Proof.
  induction node as [i k f n p ds cs IH] using Node_ind_children.
  cbn [findDescendantArrowFunction descendants find children].
  destruct (isArrowFunction (mkNode i k f n p ds cs)); [reflexivity|].
  exact (firstDefined_find findDescendantArrowFunction isArrowFunction cs IH).
Qed.

(** [findDescendantArrowFunction] returns the first arrow function of the
    subtree in document order, the node itself included: what it returns is an
    arrow function of the subtree, every node before it in document order is
    none, and it returns nothing exactly when the subtree holds no arrow
    function. *)
Theorem findDescendantArrowFunction_first (node : Node) :
  findDescendantArrowFunction node = find isArrowFunction (descendants node)
  /\ (forall arrowFunc,
         findDescendantArrowFunction node = Some arrowFunc ->
         isArrowFunction arrowFunc = true
         /\ exists before after,
              descendants node = (before ++ arrowFunc :: after)%list
              /\ Forall (fun earlier => isArrowFunction earlier = false) before)
  /\ (findDescendantArrowFunction node = None
      <-> Forall (fun below => isArrowFunction below = false) (descendants node)).
Proof.
  pose proof (findDescendantArrowFunction_find node) as Hfind.
  split; [exact Hfind|]. rewrite Hfind. split.
  - generalize (descendants node) as nodes.
    induction nodes as [|first rest IH]; intros arrowFunc; simpl; [discriminate|].
    destruct (isArrowFunction first) eqn:Hfirst.
    + intros [= <-]. split; [exact Hfirst|].
      exists [], rest. split; [reflexivity | constructor].
    + intros Hrest. destruct (IH arrowFunc Hrest) as (Harrow & before & after & -> & Hbefore).
      split; [exact Harrow|].
      exists (first :: before), after. split; [reflexivity|].
      constructor; assumption.
  - generalize (descendants node) as nodes.
    induction nodes as [|first rest IH]; simpl.
    + split; [constructor | reflexivity].
    + destruct (isArrowFunction first) eqn:Hfirst.
      * split; [discriminate|]. intros H. inversion H as [|? ? Hhead _].
        rewrite Hfirst in Hhead. discriminate Hhead.
      * rewrite IH. split.
        -- intros H. constructor; assumption.
        -- intros H. inversion H. assumption.
Qed.

(** In the property [public handler = wrap(() => 1)] the arrow function lies
    two levels down, after the keyword, the name and the callee; it is the one
    found.  The function [add] holds none. *)
Lemma findDescendantArrowFunction_first_witness :
  findDescendantArrowFunction Samples.ghost_arrow
  = Some (mkNode 59 ArrowFunction 0 None None [] [Samples.plain 60 None])
  /\ findDescendantArrowFunction Samples.add_declaration = None.
Proof.
  split.
  - rewrite (proj1 (findDescendantArrowFunction_first Samples.ghost_arrow)).
    reflexivity.
  - apply (proj2 (proj2 (findDescendantArrowFunction_first Samples.add_declaration))).
    repeat constructor.
Defined.

(** ** Where exceptions can come from *)

Lemma forEachM_Ok_each {A S : Type} (body : A -> S -> result S) (l : list A) :
  (forall a, In a l -> forall acc, exists acc', body a acc = Ok acc') ->
  forall acc, exists acc', forEachM body l acc = Ok acc'.
Proof.
  induction l as [|a l IH]; intros H acc; simpl.
  - exists acc. reflexivity.
  - destruct (H a (or_introl eq_refl) acc) as [acc1 ->]. simpl.
    apply IH. intros b Hb. apply H. right. exact Hb.
Qed.

Lemma Forall_descendants_children (P : Node -> Prop) (node : Node) :
  Forall P (descendants node) ->
  P node /\ Forall (fun child => Forall P (descendants child)) (children node).
Proof.
  destruct node as [i k f n p ds cs]. cbn [descendants children].
  intros H. inversion H as [|? ? Hnode Hbelow]. subst. split; [exact Hnode|].
  clear H Hnode. induction cs as [|c cs IH]; [constructor|].
  cbn [flat_map] in Hbelow. apply Forall_app in Hbelow as [Hc Hcs].
  constructor; [exact Hc | exact (IH Hcs)].
Qed.

Section NoException.
Context {ts : TypeScript}.
Variable checker : TypeChecker.
Hypothesis answers : answers_always checker.

Lemma serializeSymbol_answers (symbol : Symbol) :
  exists entry, serializeSymbol checker symbol = Ok entry.
Proof.
  destruct (answers symbol (valueDeclaration symbol)) as [t Ht].
  exists (symbolEntry checker symbol t). exact (serializeSymbol_Ok checker symbol t Ht).
Qed.

Lemma serializeClass_answers (symbol : Symbol) :
  exists entry, serializeClass checker symbol = Ok entry.
Proof.
  unfold serializeClass.
  destruct (serializeSymbol_answers symbol) as [details ->].
  destruct (answers symbol (valueDeclaration symbol)) as [t ->]. cbn [bind].
  destruct (mapM_Ok_each (serializeSignature checker)
              (getConstructSignatures checker t)) as [signatures ->].
  - intros signature _. unfold serializeSignature.
    destruct (mapM_Ok_each (serializeSymbol checker)
                (signature_parameters signature)) as [params ->].
    + intros parameter _. exact (serializeSymbol_answers parameter).
    + eexists. reflexivity.
  - eexists. reflexivity.
Qed.

Lemma addDocEntry_answers (symbol : option Symbol) (entries : list DocEntry) :
  exists entries', addDocEntry checker symbol entries = Ok entries'.
Proof.
  unfold addDocEntry. destruct symbol as [symbol|]; [|eexists; reflexivity].
  destruct (serializeSymbol_answers symbol) as [details ->]. eexists. reflexivity.
Qed.

Lemma visit_answers (node : Node) :
  Forall hasFirstDeclaration (descendants node) ->
  exists entries, visit checker node = Ok entries.
Proof.
  induction node as [i k f n p ds cs IH] using Node_ind_children.
  intros Hall. set (node := mkNode i k f n p ds cs) in *.
  apply Forall_descendants_children in Hall as [Hnode Hchildren].
  assert (Hbelow : forall child, In child (children node) ->
                     exists entries, visit checker child = Ok entries).
  { intros child Hchild. rewrite Forall_forall in IH, Hchildren.
    exact (IH child Hchild (Hchildren child Hchild)). }
  destruct (isNodeExportedOrPublic node) eqn:Hgate;
    [|exists []; exact (visit_hidden checker node Hgate)].
  assert (Hlast : takesLastBranch node = true ->
                  exists entries, visit checker node = Ok entries).
  { intros Hlast. rewrite (visit_other checker node Hgate Hlast).
    destruct (findDescendantArrowFunction node);
      [apply addDocEntry_answers | eexists; reflexivity]. }
  destruct k eqn:Hkind.
  - destruct n as [nameOfClass|]; [|apply Hlast; reflexivity].
    rewrite (visit_class checker node nameOfClass Hgate eq_refl eq_refl).
    destruct (getSymbolAtLocation checker (Some nameOfClass)) as [symbol|];
      [|eexists; reflexivity].
    destruct (serializeClass_answers symbol) as [serialized ->]. cbn [bind].
    destruct (forEachM_Ok_each (collectMethods checker) (children node))
      with (acc := with_methods serialized (Some [])) as [classEntry ->].
    + intros child Hchild acc. unfold collectMethods.
      destruct (Hbelow child Hchild) as [docEntries ->]. eexists. reflexivity.
    + eexists. reflexivity.
  - rewrite (visit_module checker node Hgate eq_refl).
    apply forEachM_Ok_each. intros child Hchild acc. unfold collectEntries.
    destruct (Hbelow child Hchild) as [docEntries ->]. eexists. reflexivity.
  - rewrite (visit_method checker node Hgate eq_refl). apply addDocEntry_answers.
  - rewrite (visit_function checker node Hgate eq_refl). apply addDocEntry_answers.
  - rewrite (visit_variable checker node Hgate eq_refl).
    destruct (declarations node) as [|first others] eqn:Hdeclarations.
    + contradiction (Hnode eq_refl).
    + apply addDocEntry_answers.
  - apply Hlast. reflexivity.
  - apply Hlast. reflexivity.
Qed.

End NoException.

(** With a checker whose type query always answers, the only exception the
    extractor can raise is the one of a variable statement with an empty
    declaration list: [visit] returns normally on every subtree whose variable
    statements all have a first declaration, and [generateDocumentation] returns
    normally when this holds below every top-level node of every file that is no
    declaration file. *)
Theorem generateDocumentation_returns {ts : TypeScript} :
  (forall checker node,
      answers_always checker ->
      Forall hasFirstDeclaration (descendants node) ->
      exists entries, visit checker node = Ok entries)
  /\ (forall fileNames options,
         answers_always (getTypeChecker (createProgram fileNames options)) ->
         (forall sourceFile node,
             In sourceFile (getSourceFiles (createProgram fileNames options)) ->
             isDeclarationFile sourceFile = false ->
             In node (sourceFile_children sourceFile) ->
             Forall hasFirstDeclaration (descendants node)) ->
         exists entries, generateDocumentation fileNames options = Ok entries).
Proof.
  split.
  - intros checker node Hanswers. exact (visit_answers checker Hanswers node).
  - intros fileNames options Hanswers Hall.
    unfold generateDocumentation. cbv zeta.
    apply forEachM_Ok_each. intros sourceFile Hfile acc.
    apply filter_In in Hfile as [Hfile Hsource].
    apply negb_true_iff in Hsource.
    apply forEachM_Ok_each. intros node Hnode acc'.
    destruct (visit_answers _ Hanswers node (Hall sourceFile node Hfile Hsource Hnode))
      as [entries ->].
    eexists. reflexivity.
Qed.

(** The sample checker always answers: [add.ts] and the file whose function
    has no declaring location are extracted together. *)
Lemma generateDocumentation_returns_witness :
  answers_always Samples.checker
  /\ exists entries,
       @generateDocumentation Samples.typescript ["add.ts"; "orphan.ts"] tt = Ok entries.
Proof.
  assert (Hanswers : answers_always Samples.checker).
  { intros symbol [declaration|]; eexists; reflexivity. }
  split; [exact Hanswers|].
  apply (proj2 (@generateDocumentation_returns Samples.typescript)
           ["add.ts"; "orphan.ts"] tt Hanswers).
  intros sourceFile node Hfile _ Hnode.
  vm_compute in Hfile. destruct Hfile as [<-|[<-|[]]].
  - destruct Hnode as [<-|[<-|[]]]; repeat constructor; discriminate.
  - destruct Hnode as [<-|[]]; repeat constructor; discriminate.
Defined.

(** ** The shape of the records *)

Lemma symbolEntry_shaped {ts : TypeScript} (checker : TypeChecker) (symbol : Symbol)
    (t : TsType) :
  symbolShaped (symbolEntry checker symbol t).
Proof. unfold symbolShaped. cbn. repeat split; discriminate. Qed.

Lemma extracted_shaped (entry : DocEntry) : extracted entry -> symbolShaped entry.
Proof. intros [e H _ _ | e signatures members H _ _ _]; exact H. Qed.

Lemma extracted_members (entry : DocEntry) :
  extracted entry -> Forall extracted (nullish (methods entry) []).
Proof.
  intros [e _ _ Hmethods | e signatures members _ _ Hmethods Hmembers];
    rewrite Hmethods; [constructor | exact Hmembers].
Qed.

Section Shape.
Context {ts : TypeScript}.
Variable checker : TypeChecker.

Lemma addDocEntry_inv (symbol : option Symbol) (entries : list DocEntry) :
  addDocEntry checker symbol [] = Ok entries ->
  entries = []
  \/ exists s t, symbol = Some s /\ entries = [symbolEntry checker s t].
Proof.
  unfold addDocEntry. destruct symbol as [s|].
  - intros H. apply bind_Ok in H as (details & Hdetails & [= <-]).
    apply serializeSymbol_inv in Hdetails as (t & _ & ->).
    right. exists s, t. split; reflexivity.
  - intros [= <-]. left. reflexivity.
Qed.

Lemma addDocEntry_extracted (symbol : option Symbol) (entries : list DocEntry) :
  addDocEntry checker symbol [] = Ok entries -> Forall extracted entries.
Proof.
  intros H. apply addDocEntry_inv in H as [-> | (s & t & _ & ->)]; [constructor|].
  constructor; [|constructor].
  apply extracted_member; [apply symbolEntry_shaped | reflexivity | reflexivity].
Qed.

Lemma push_methods_inProgress (signatures : list SignatureEntry) (entry : DocEntry)
    (docEntries : list DocEntry) :
  classInProgress signatures entry ->
  Forall extracted docEntries ->
  classInProgress signatures (push_methods entry docEntries).
Proof.
  intros (Hshape & Hconstructors & members & Hmethods & Hmembers) Hdoc.
  unfold push_methods. rewrite Hmethods.
  split; [exact Hshape|]. split; [exact Hconstructors|].
  exists (push members docEntries). split; [reflexivity|].
  unfold push. apply Forall_app. split; assumption.
Qed.

Lemma visit_extracted (node : Node) :
  forall entries, visit checker node = Ok entries -> Forall extracted entries.
Proof.
  induction node as [i k f n p ds cs IH] using Node_ind_children.
  intros entries Hvisit. set (node := mkNode i k f n p ds cs) in *.
  destruct (isNodeExportedOrPublic node) eqn:Hgate.
  2:{ rewrite (visit_hidden checker node Hgate) in Hvisit.
      injection Hvisit as <-. constructor. }
  assert (Hlast : takesLastBranch node = true -> Forall extracted entries).
  { intros Hlast. rewrite (visit_other checker node Hgate Hlast) in Hvisit.
    destruct (findDescendantArrowFunction node) as [arrowFunc|].
    - exact (addDocEntry_extracted _ entries Hvisit).
    - injection Hvisit as <-. constructor. }
  destruct k eqn:Hkind.
  - destruct n as [nameOfClass|]; [|apply Hlast; reflexivity].
    rewrite (visit_class checker node nameOfClass Hgate eq_refl eq_refl) in Hvisit.
    destruct (getSymbolAtLocation checker (Some nameOfClass)) as [symbol|];
      [|injection Hvisit as <-; constructor].
    apply bind_Ok in Hvisit as (serialized & Hserialized & Hvisit).
    apply bind_Ok in Hvisit as (classEntry & Hloop & [= <-]).
    apply serializeClass_inv in Hserialized as (t & signatures & ->).
    constructor; [|constructor].
    assert (Hfinal : classInProgress signatures classEntry).
    { apply (forEachM_invariant (classInProgress signatures) (collectMethods checker)
               (children node))
        with (acc := with_methods
                       (with_constructors (symbolEntry checker symbol t) (Some signatures))
                       (Some []));
        [| |exact Hloop].
      - intros child Hchild acc acc' Hacc Hstep. unfold collectMethods in Hstep.
        apply bind_Ok in Hstep as (docEntries & Hdoc & [= <-]).
        apply push_methods_inProgress; [exact Hacc|].
        rewrite Forall_forall in IH. exact (IH child Hchild docEntries Hdoc).
      - split; [exact (symbolEntry_shaped checker symbol t)|].
        split; [reflexivity|]. exists []. split; [reflexivity | constructor]. }
    destruct Hfinal as (Hshape & Hconstructors & members & Hmethods & Hmembers).
    exact (extracted_class classEntry signatures members Hshape Hconstructors
             Hmethods Hmembers).
  - rewrite (visit_module checker node Hgate eq_refl) in Hvisit.
    apply (forEachM_invariant (Forall extracted) (collectEntries checker) (children node))
      with (acc := []) (acc' := entries); [|constructor|exact Hvisit].
    intros child Hchild acc acc' Hacc Hstep. unfold collectEntries in Hstep.
    apply bind_Ok in Hstep as (docEntries & Hdoc & [= <-]).
    unfold push. apply Forall_app. split; [exact Hacc|].
    rewrite Forall_forall in IH. exact (IH child Hchild docEntries Hdoc).
  - rewrite (visit_method checker node Hgate eq_refl) in Hvisit.
    exact (addDocEntry_extracted _ entries Hvisit).
  - rewrite (visit_function checker node Hgate eq_refl) in Hvisit.
    exact (addDocEntry_extracted _ entries Hvisit).
  - rewrite (visit_variable checker node Hgate eq_refl) in Hvisit.
    destruct (declarations node) as [|first others]; [discriminate Hvisit|].
    exact (addDocEntry_extracted _ entries Hvisit).
  - apply Hlast. reflexivity.
  - apply Hlast. reflexivity.
Qed.

End Shape.

(** Every top-level record of an extraction is a record of [visit], stamped
    with the path of a file of the program that is no declaration file. *)
Lemma generateDocumentation_stamped {ts : TypeScript} (fileNames : list string)
    (options : CompilerOptions) (entries : list DocEntry) :
  generateDocumentation fileNames options = Ok entries ->
  Forall (fun entry =>
            exists sourceFile visited,
              In sourceFile (getSourceFiles (createProgram fileNames options))
              /\ isDeclarationFile sourceFile = false
              /\ extracted visited
              /\ entry = stamp sourceFile visited)
         entries.
Proof.
  unfold generateDocumentation. cbv zeta.
  apply forEachM_invariant; [|constructor].
  intros sourceFile Hfile acc acc' Hacc. apply filter_In in Hfile as [Hfile Hsource].
  apply negb_true_iff in Hsource.
  apply forEachM_invariant; [|exact Hacc].
  intros node _ result result' Hresult Hstep.
  apply bind_Ok in Hstep as (docEntries & Hvisit & [= <-]).
  unfold push. apply Forall_app. split; [exact Hresult|].
  apply visit_extracted in Hvisit. rewrite Forall_forall in Hvisit.
  apply Forall_forall. intros stamped Hin.
  apply in_map_iff in Hin as (visited & <- & Hin).
  exists sourceFile, visited. repeat split; try assumption.
  exact (Hvisit visited Hin).
Qed.

Lemma subsection_no_parameters (entry : DocEntry) :
  parameters entry = None ->
  Markdown.rowToMarkdown (Markdown.toRow entry)
  = join LF (subsection_without_parameters entry).
Proof.
  intros Hnone. rewrite rowToMarkdown_subsection.
  unfold subsection_spec, subsection_without_parameters, parameters_spec.
  rewrite Hnone, app_nil_r. reflexivity.
Qed.

(** Every record [visit] returns is a member record or a class record: it has
    a documentation, a type and doc tags, and no [parameters], [returnType],
    [fileName] or [doc_type]; it has [constructors] exactly when it has [methods],
    and its methods are records of the same two shapes.  The records
    [generateDocumentation] returns therefore have no [parameters] and no
    [returnType] either, so [toMarkdown] renders each of them as heading,
    paragraph and table, never with a parameter list. *)
Theorem visit_record_shape {ts : TypeScript} :
  (forall checker node entries,
      visit checker node = Ok entries -> Forall extracted entries)
  /\ (forall entry,
         extracted entry ->
         documentation entry <> None /\ type entry <> None /\ jsDocs entry <> None
         /\ parameters entry = None /\ returnType entry = None
         /\ (constructors entry = None <-> methods entry = None)
         /\ Forall extracted (nullish (methods entry) []))
  /\ (forall fileNames options entries,
         generateDocumentation fileNames options = Ok entries ->
         Forall (fun entry => parameters entry = None /\ returnType entry = None) entries
         /\ Markdown.toMarkdown entries
            = join LF (map (fun entry => join LF (subsection_without_parameters entry))
                           entries)).
Proof.
  split; [|split].
  - intros checker. exact (visit_extracted checker).
  - intros entry Hentry.
    destruct (extracted_shaped entry Hentry) as (_ & Hdoc & Htype & Htags & Hparams & Hret & _).
    repeat (split; [assumption|]). split.
    + destruct Hentry as [e _ Hc Hm | e signatures members _ Hc Hm _]; rewrite Hc, Hm.
      * split; reflexivity.
      * split; discriminate.
    + exact (extracted_members entry Hentry).
  - intros fileNames options entries Hrun.
    apply generateDocumentation_stamped in Hrun.
    assert (Hfields : Forall (fun entry => parameters entry = None
                                           /\ returnType entry = None) entries).
    { apply Forall_forall. intros entry Hin. rewrite Forall_forall in Hrun.
      destruct (Hrun entry Hin) as (sourceFile & visited & _ & _ & Hvisited & ->).
      destruct (extracted_shaped visited Hvisited) as (_ & _ & _ & _ & Hp & Hr & _).
      split; assumption. }
    split; [exact Hfields|].
    unfold Markdown.toMarkdown. rewrite map_map. f_equal.
    apply map_ext_in. intros entry Hin. rewrite Forall_forall in Hfields.
    apply subsection_no_parameters. exact (proj1 (Hfields entry Hin)).
Qed.

(** The record of the class [C] of [shape.ts]: a class record whose one method
    is a member record. *)
Lemma visit_record_shape_witness :
  exists classEntry methodEntry,
    @visit Samples.typescript Samples.checker Samples.C_declaration = Ok [classEntry]
    /\ extracted classEntry
    /\ methods classEntry = Some [methodEntry]
    /\ extracted methodEntry
    /\ parameters methodEntry = None.
Proof.
  destruct (@visit Samples.typescript Samples.checker Samples.C_declaration)
    as [entries|e] eqn:Hvisit; [|vm_compute in Hvisit; discriminate Hvisit].
  pose proof (proj1 (@visit_record_shape Samples.typescript) _ _ _ Hvisit) as Hshape.
  vm_compute in Hvisit. injection Hvisit as <-.
  inversion Hshape as [|classEntry rest Hclass _]. subst.
  eexists. eexists. split; [reflexivity|]. split; [exact Hclass|].
  split; [reflexivity|].
  pose proof (extracted_members _ Hclass) as Hmembers. cbn in Hmembers.
  inversion Hmembers as [|methodEntry rest Hmethod _]. subst.
  split; [exact Hmethod | reflexivity].
Defined.

(** ** The file of a record *)

(** Every record [generateDocumentation] returns carries the path of a file
    of the program that is no declaration file, while the records of its
    methods carry none; a record [visit] returns carries none at any level. *)
Theorem generateDocumentation_fileName {ts : TypeScript} :
  (forall checker node entries,
      visit checker node = Ok entries ->
      Forall (fun entry =>
                fileName entry = None
                /\ Forall (fun member => fileName member = None)
                          (nullish (methods entry) []))
             entries)
  /\ (forall fileNames options entries,
         generateDocumentation fileNames options = Ok entries ->
         Forall (fun entry =>
                   (exists sourceFile,
                       In sourceFile (getSourceFiles (createProgram fileNames options))
                       /\ isDeclarationFile sourceFile = false
                       /\ fileName entry = Some (sourceFile_fileName sourceFile))
                   /\ Forall (fun member => fileName member = None)
                             (nullish (methods entry) []))
                entries).
Proof.
  assert (Hmembers : forall entry,
             extracted entry ->
             Forall (fun member => fileName member = None) (nullish (methods entry) [])).
  { intros entry Hentry. apply extracted_members in Hentry.
    apply Forall_forall. intros member Hin. rewrite Forall_forall in Hentry.
    exact (proj1 (extracted_shaped member (Hentry member Hin))). }
  split.
  - intros checker node entries Hvisit. apply visit_extracted in Hvisit.
    apply Forall_forall. intros entry Hin. rewrite Forall_forall in Hvisit.
    split; [exact (proj1 (extracted_shaped entry (Hvisit entry Hin)))|].
    exact (Hmembers entry (Hvisit entry Hin)).
  - intros fileNames options entries Hrun.
    apply generateDocumentation_stamped in Hrun.
    apply Forall_forall. intros entry Hin. rewrite Forall_forall in Hrun.
    destruct (Hrun entry Hin) as (sourceFile & visited & Hfile & Hsource & Hvisited & ->).
    split.
    + exists sourceFile. repeat split; assumption.
    + exact (Hmembers visited Hvisited).
Qed.

(** The class of [shape.ts]: its record is stamped [shape.ts], the record of
    its method is not. *)
Lemma generateDocumentation_fileName_witness :
  exists classEntry methodEntry,
    @generateDocumentation Samples.typescript ["shape.ts"] tt = Ok [classEntry]
    /\ fileName classEntry = Some "shape.ts"
    /\ methods classEntry = Some [methodEntry]
    /\ fileName methodEntry = None.
Proof.
  destruct (@generateDocumentation Samples.typescript ["shape.ts"] tt)
    as [entries|e] eqn:Hrun; [|vm_compute in Hrun; discriminate Hrun].
  pose proof (proj2 (@generateDocumentation_fileName Samples.typescript) _ _ _ Hrun)
    as Hfiles.
  vm_compute in Hrun. injection Hrun as <-.
  inversion Hfiles as [|classEntry rest [_ Hmembers] _]. subst.
  cbn in Hmembers. inversion Hmembers as [|methodEntry rest Hmethod _]. subst.
  eexists. eexists. split; [reflexivity|]. split; [reflexivity|].
  split; [reflexivity | exact Hmethod].
Defined.

(** ** How many records a node gives, and whose *)

Section Records.
Context {ts : TypeScript}.
Variable checker : TypeChecker.

Lemma visit_namespace_flat (node : Node) :
  isNodeExportedOrPublic node = true ->
  kind node = ModuleDeclaration ->
  visit checker node
  = (perChild <- mapM (visit checker) (children node) ;; Ok (List.concat perChild)).
Proof.
  intros Hgate Hkind. rewrite (visit_module checker node Hgate Hkind).
  apply collectEntries_loop.
Qed.

Lemma visit_single (node : Node) (entries : list DocEntry) :
  kind node <> ModuleDeclaration ->
  visit checker node = Ok entries ->
  (List.length entries <= 1)%nat.
Proof.
  intros Hkind Hvisit.
  destruct (isNodeExportedOrPublic node) eqn:Hgate.
  2:{ rewrite (visit_hidden checker node Hgate) in Hvisit.
      injection Hvisit as <-. simpl. lia. }
  assert (Hadd : forall symbol, addDocEntry checker symbol [] = Ok entries ->
                                (List.length entries <= 1)%nat).
  { intros symbol H. apply addDocEntry_inv in H as [-> | (s & t & _ & ->)]; simpl; lia. }
  assert (Hlast : takesLastBranch node = true -> (List.length entries <= 1)%nat).
  { intros Hlast. rewrite (visit_other checker node Hgate Hlast) in Hvisit.
    destruct (findDescendantArrowFunction node) as [arrowFunc|].
    - exact (Hadd _ Hvisit).
    - injection Hvisit as <-. simpl. lia. }
  destruct (kind node) eqn:Hk.
  - destruct (node_name node) as [nameOfClass|] eqn:Hname.
    + rewrite (visit_class checker node nameOfClass Hgate Hk Hname) in Hvisit.
      destruct (getSymbolAtLocation checker (Some nameOfClass)) as [symbol|].
      * apply bind_Ok in Hvisit as (serialized & _ & Hvisit).
        apply bind_Ok in Hvisit as (classEntry & _ & [= <-]). simpl. lia.
      * injection Hvisit as <-. simpl. lia.
    + apply Hlast. unfold takesLastBranch. rewrite Hk, Hname. reflexivity.
  - contradiction Hkind. reflexivity.
  - rewrite (visit_method checker node Hgate Hk) in Hvisit. exact (Hadd _ Hvisit).
  - rewrite (visit_function checker node Hgate Hk) in Hvisit. exact (Hadd _ Hvisit).
  - rewrite (visit_variable checker node Hgate Hk) in Hvisit.
    destruct (declarations node) as [|first others]; [discriminate Hvisit|].
    exact (Hadd _ Hvisit).
  - apply Hlast. unfold takesLastBranch. rewrite Hk. reflexivity.
  - apply Hlast. unfold takesLastBranch. rewrite Hk. reflexivity.
Qed.

Lemma visit_named (node : Node) :
  forall entries,
    visit checker node = Ok entries ->
    Forall (fun entry =>
              exists symbol, reaches checker node symbol /\ name entry = getName symbol)
           entries.
Proof.
  induction node as [i k f n p ds cs IH] using Node_ind_children.
  intros entries Hvisit. set (node := mkNode i k f n p ds cs) in *.
  destruct (isNodeExportedOrPublic node) eqn:Hgate.
  2:{ rewrite (visit_hidden checker node Hgate) in Hvisit.
      injection Hvisit as <-. constructor. }
  assert (Hadd : forall found,
             (forall symbol, found = Some symbol -> reaches checker node symbol) ->
             addDocEntry checker found [] = Ok entries ->
             Forall (fun entry =>
                       exists symbol,
                         reaches checker node symbol /\ name entry = getName symbol)
                    entries).
  { intros found Hfound H.
    apply addDocEntry_inv in H as [-> | (s & t & Hs & ->)]; [constructor|].
    constructor; [|constructor]. exists s. split; [exact (Hfound s Hs) | reflexivity]. }
  assert (Hlast : takesLastBranch node = true ->
                  Forall (fun entry =>
                            exists symbol,
                              reaches checker node symbol /\ name entry = getName symbol)
                         entries).
  { intros Hlast. rewrite (visit_other checker node Hgate Hlast) in Hvisit.
    destruct (findDescendantArrowFunction node) as [arrowFunc|] eqn:Hfound.
    - apply (Hadd _ (fun symbol Hsymbol =>
                       reaches_arrow checker node arrowFunc symbol Hgate Hlast Hfound
                         Hsymbol) Hvisit).
    - injection Hvisit as <-. constructor. }
  destruct k eqn:Hkind.
  - destruct n as [nameOfClass|]; [|apply Hlast; reflexivity].
    rewrite (visit_class checker node nameOfClass Hgate eq_refl eq_refl) in Hvisit.
    destruct (getSymbolAtLocation checker (Some nameOfClass)) as [symbol|] eqn:Hsymbol;
      [|injection Hvisit as <-; constructor].
    apply bind_Ok in Hvisit as (serialized & Hserialized & Hvisit).
    apply bind_Ok in Hvisit as (classEntry & Hloop & [= <-]).
    constructor; [|constructor]. exists symbol. split.
    + exact (reaches_class checker node nameOfClass symbol Hgate eq_refl eq_refl Hsymbol).
    + apply (forEachM_invariant (fun entry => name entry = getName symbol)
               (collectMethods checker) (children node))
        with (acc := with_methods serialized (Some [])); [| |exact Hloop].
      * intros child _ acc acc' Hacc Hstep. unfold collectMethods in Hstep.
        apply bind_Ok in Hstep as (docEntries & _ & [= <-]).
        unfold push_methods. destruct (methods acc); exact Hacc.
      * exact (serializeClass_name checker symbol serialized Hserialized).
  - rewrite (visit_module checker node Hgate eq_refl) in Hvisit.
    apply (forEachM_invariant
             (Forall (fun entry =>
                        exists symbol,
                          reaches checker node symbol /\ name entry = getName symbol))
             (collectEntries checker) (children node))
      with (acc := []) (acc' := entries); [|constructor|exact Hvisit].
    intros child Hchild acc acc' Hacc Hstep. unfold collectEntries in Hstep.
    apply bind_Ok in Hstep as (docEntries & Hdoc & [= <-]).
    unfold push. apply Forall_app. split; [exact Hacc|].
    rewrite Forall_forall in IH. pose proof (IH child Hchild docEntries Hdoc) as Hbelow.
    apply Forall_forall. intros entry Hin. rewrite Forall_forall in Hbelow.
    destruct (Hbelow entry Hin) as (symbol & Hreaches & Hname).
    exists symbol. split; [|exact Hname].
    exact (reaches_namespace checker node child symbol Hgate eq_refl Hchild Hreaches).
  - rewrite (visit_method checker node Hgate eq_refl) in Hvisit.
    apply (Hadd _ (fun symbol Hsymbol =>
                     reaches_method checker node symbol Hgate eq_refl Hsymbol) Hvisit).
  - rewrite (visit_function checker node Hgate eq_refl) in Hvisit.
    apply (Hadd _ (fun symbol Hsymbol =>
                     reaches_function checker node symbol Hgate eq_refl Hsymbol) Hvisit).
  - rewrite (visit_variable checker node Hgate eq_refl) in Hvisit.
    destruct (declarations node) as [|first others] eqn:Hdeclarations;
      [discriminate Hvisit|].
    apply (Hadd _ (fun symbol Hsymbol =>
                     reaches_variable checker node first others symbol Hgate eq_refl
                       Hdeclarations Hsymbol) Hvisit).
  - apply Hlast. reflexivity.
  - apply Hlast. reflexivity.
Qed.

End Records.

(** A node that is no namespace gives at most one record; an exported
    namespace gives the records of its children, concatenated in order, so it
    can give any number. *)
Theorem visit_record_count {ts : TypeScript} (checker : TypeChecker) :
  (forall node entries,
      kind node <> ModuleDeclaration ->
      visit checker node = Ok entries ->
      (List.length entries <= 1)%nat)
  /\ (forall node,
         isNodeExportedOrPublic node = true ->
         kind node = ModuleDeclaration ->
         visit checker node
         = (perChild <- mapM (visit checker) (children node) ;;
            Ok (List.concat perChild))).
Proof.
  split.
  - exact (visit_single checker).
  - exact (visit_namespace_flat checker).
Qed.

(** The class [C] gives one record although it has a member; the namespace
    [N] gives what its children give, which is nothing. *)
Lemma visit_record_count_witness :
  (exists entries,
      @visit Samples.typescript Samples.checker Samples.C_declaration = Ok entries
      /\ (List.length entries <= 1)%nat)
  /\ @visit Samples.typescript Samples.checker Samples.N_declaration
     = (perChild <- mapM (@visit Samples.typescript Samples.checker)
                         (children Samples.N_declaration) ;;
        Ok (List.concat perChild))
  /\ @visit Samples.typescript Samples.checker Samples.N_declaration = Ok [].
Proof.
  split; [|split].
  - destruct (@visit Samples.typescript Samples.checker Samples.C_declaration)
      as [entries|e] eqn:Hvisit; [|vm_compute in Hvisit; discriminate Hvisit].
    exists entries. split; [reflexivity|].
    apply (proj1 (@visit_record_count Samples.typescript Samples.checker)
             Samples.C_declaration entries); [discriminate | exact Hvisit].
  - exact (proj2 (@visit_record_count Samples.typescript Samples.checker)
             Samples.N_declaration eq_refl eq_refl).
  - rewrite (proj2 (@visit_record_count Samples.typescript Samples.checker)
               Samples.N_declaration eq_refl eq_refl).
    reflexivity.
Defined.

(** Every record [visit] returns is named after a symbol the traversal
    reached from the node: nothing is named otherwise, and no record is made up
    for a name the checker did not resolve. *)
Theorem visit_names_resolved {ts : TypeScript} (checker : TypeChecker) (node : Node)
    (entries : list DocEntry) :
  visit checker node = Ok entries ->
  Forall (fun entry =>
            exists symbol, reaches checker node symbol /\ name entry = getName symbol)
         entries.
Proof. exact (visit_named checker node entries). Qed.

(** The record of the class [C] is named after a symbol reached from it. *)
Lemma visit_names_resolved_witness :
  exists classEntry classSymbol,
    @visit Samples.typescript Samples.checker Samples.C_declaration = Ok [classEntry]
    /\ @reaches Samples.typescript Samples.checker Samples.C_declaration classSymbol
    /\ name classEntry = getName classSymbol
    /\ name classEntry = "C".
Proof.
  destruct (@visit Samples.typescript Samples.checker Samples.C_declaration)
    as [entries|e] eqn:Hvisit; [|vm_compute in Hvisit; discriminate Hvisit].
  pose proof (@visit_names_resolved Samples.typescript Samples.checker
                Samples.C_declaration entries Hvisit) as Hnames.
  vm_compute in Hvisit. injection Hvisit as <-.
  inversion Hnames as [|classEntry rest (classSymbol & Hreach & Hname) _]. subst.
  eexists. exists classSymbol.
  split; [reflexivity|]. split; [exact Hreach|]. split; [exact Hname | reflexivity].
Defined.

(** ** A class declaration with no name *)

(** An exported class declaration with no name is not skipped and is not
    treated as a class: it takes the last branch.  It gives the record of the
    symbol of the first arrow function below it, when there is one and its
    parent's name resolves, and nothing otherwise; its children are never visited
    as members, so the record has no [methods]. *)
Theorem visit_unnamed_class {ts : TypeScript} (checker : TypeChecker) (node : Node) :
  isNodeExportedOrPublic node = true ->
  kind node = ClassDeclaration ->
  node_name node = None ->
  visit checker node
  = match find isArrowFunction (descendants node) with
    | Some arrowFunc =>
        match getSymbolAtLocation checker (parent_name arrowFunc) with
        | Some symbol => details <- serializeSymbol checker symbol ;; Ok [details]
        | None => Ok []
        end
    | None => Ok []
    end
  /\ (forall entries,
         visit checker node = Ok entries ->
         Forall (fun entry => methods entry = None /\ constructors entry = None) entries).
Proof.
  intros Hgate Hkind Hname.
  assert (Hlast : takesLastBranch node = true).
  { unfold takesLastBranch. rewrite Hkind, Hname. reflexivity. }
  assert (Heq : visit checker node
                = match find isArrowFunction (descendants node) with
                  | Some arrowFunc =>
                      match getSymbolAtLocation checker (parent_name arrowFunc) with
                      | Some symbol =>
                          details <- serializeSymbol checker symbol ;; Ok [details]
                      | None => Ok []
                      end
                  | None => Ok []
                  end).
  { rewrite (visit_other checker node Hgate Hlast), findDescendantArrowFunction_find.
    destruct (find isArrowFunction (descendants node)) as [arrowFunc|]; [|reflexivity].
    destruct (getSymbolAtLocation checker (parent_name arrowFunc)); reflexivity. }
  split; [exact Heq|].
  intros entries. rewrite Heq.
  destruct (find isArrowFunction (descendants node)) as [arrowFunc|];
    [|intros [= <-]; constructor].
  destruct (getSymbolAtLocation checker (parent_name arrowFunc)) as [symbol|];
    [|intros [= <-]; constructor].
  intros H. apply bind_Ok in H as (details & Hdetails & [= <-]).
  apply serializeSymbol_inv in Hdetails as (t & _ & ->).
  constructor; [split; reflexivity | constructor].
Qed.

(** [export default class { handler = () => 1 }] gives one record, named
    [handler], and none for the class. *)
Lemma visit_unnamed_class_witness :
  exists entry,
    @visit Samples.typescript MoreSamples.handler_checker MoreSamples.unnamed_class
    = Ok [entry]
    /\ name entry = "handler"
    /\ methods entry = None.
Proof.
  eexists. split; [|split].
  - rewrite (proj1 (@visit_unnamed_class Samples.typescript MoreSamples.handler_checker
                      MoreSamples.unnamed_class eq_refl eq_refl eq_refl)).
    reflexivity.
  - reflexivity.
  - reflexivity.
Defined.

(** ** Declaration files *)

(** The nodes of a declaration file are never visited.  Whether
    [generateDocumentation] returns depends only on the top-level nodes of the
    files that are no declaration files: when [visit] returns for each of them
    the extraction returns, whatever the declaration files of the program hold;
    and a program that holds only declaration files gives the empty
    sequence. *)
Theorem generateDocumentation_skips_declaration_files {ts : TypeScript} :
  (forall fileNames options,
      (forall sourceFile node,
          In sourceFile (getSourceFiles (createProgram fileNames options)) ->
          isDeclarationFile sourceFile = false ->
          In node (sourceFile_children sourceFile) ->
          exists entries,
            visit (getTypeChecker (createProgram fileNames options)) node = Ok entries) ->
      exists entries, generateDocumentation fileNames options = Ok entries)
  /\ (forall fileNames options,
         Forall (fun sourceFile => isDeclarationFile sourceFile = true)
                (getSourceFiles (createProgram fileNames options)) ->
         generateDocumentation fileNames options = Ok []).
Proof.
  split.
  - intros fileNames options Hall.
    unfold generateDocumentation. cbv zeta.
    apply forEachM_Ok_each. intros sourceFile Hfile acc.
    apply filter_In in Hfile as [Hfile Hsource]. apply negb_true_iff in Hsource.
    apply forEachM_Ok_each. intros node Hnode acc'.
    destruct (Hall sourceFile node Hfile Hsource Hnode) as [entries ->].
    eexists. reflexivity.
  - intros fileNames options Hall.
    unfold generateDocumentation. cbv zeta.
    replace (filter _ (getSourceFiles (createProgram fileNames options)))
      with (@nil SourceFile); [reflexivity|].
    symmetry. induction Hall as [|sourceFile rest Hfile _ IH]; [reflexivity|].
    cbn [filter]. rewrite Hfile. exact IH.
Qed.

(** [lib.d.ts] holds a statement on which [visit] throws.  The program of
    [lib.d.ts] and [add.ts] is extracted all the same, and the program of
    [lib.d.ts] alone gives the empty sequence. *)
Lemma generateDocumentation_skips_declaration_files_witness :
  @visit Samples.typescript Samples.checker Samples.empty_statement = Throw TypeError
  /\ getSourceFiles (@createProgram MoreSamples.lib_typescript ["add.ts"] tt)
     = [MoreSamples.lib_file; Samples.add_file]
  /\ (exists entries,
         @generateDocumentation MoreSamples.lib_typescript ["add.ts"] tt = Ok entries)
  /\ @generateDocumentation MoreSamples.lib_typescript [] tt = Ok [].
Proof.
  destruct (@generateDocumentation_skips_declaration_files MoreSamples.lib_typescript)
    as [Hreturns Hnone].
  split; [reflexivity|]. split; [reflexivity|]. split.
  - apply (Hreturns ["add.ts"] tt). intros sourceFile node Hfile Hsource Hnode.
    vm_compute in Hfile. destruct Hfile as [<-|[<-|[]]]; [discriminate Hsource|].
    destruct Hnode as [<-|[<-|[]]]; eexists; reflexivity.
  - apply (Hnone [] tt). repeat constructor.
Defined.

(** ** Construct signatures *)

Lemma mapM_Forall2 {A B : Type} (f : A -> result B) (l : list A) (bs : list B) :
  mapM f l = Ok bs -> Forall2 (fun a b => f a = Ok b) l bs.
Proof.
  revert bs. induction l as [|a l IH]; intros bs; simpl.
  - intros [= <-]. constructor.
  - intros H. apply bind_Ok in H as (b & Hb & H).
    apply bind_Ok in H as (rest & Hrest & [= <-]).
    constructor; [exact Hb | exact (IH rest Hrest)].
Qed.

Lemma serializeSymbol_names {ts : TypeScript} (checker : TypeChecker)
    (symbols : list Symbol) (entries : list DocEntry) :
  mapM (serializeSymbol checker) symbols = Ok entries ->
  map name entries = map getName symbols.
Proof.
  intros H. apply mapM_Forall2 in H.
  induction H as [|symbol entry symbols entries Hentry _ IH]; [reflexivity|].
  apply serializeSymbol_inv in Hentry as (t & _ & ->). simpl. rewrite IH. reflexivity.
Qed.

(** When [serializeClass] returns, the record has one constructor record per
    construct signature of the symbol's type, in the order of the checker, and
    each constructor record has one parameter record per parameter of its
    signature, in order and named after it, together with the string form of
    the signature's return type. *)
Theorem serializeClass_constructors {ts : TypeScript} (checker : TypeChecker)
    (symbol : Symbol) (entry : DocEntry) :
  serializeClass checker symbol = Ok entry ->
  exists t records,
    getTypeOfSymbolAtLocation checker symbol (valueDeclaration symbol) = Ok t
    /\ constructors entry = Some records
    /\ Forall2 (fun signature record =>
                  sig_returnType record
                  = Some (typeToString checker (getReturnType signature))
                  /\ exists params,
                       sig_parameters record = Some params
                       /\ map name params
                          = map getName (signature_parameters signature))
               (getConstructSignatures checker t) records.
Proof.
  unfold serializeClass. intros H.
  apply bind_Ok in H as (details & _ & H).
  apply bind_Ok in H as (t & Ht & H).
  apply bind_Ok in H as (records & Hrecords & [= <-]).
  exists t, records. split; [exact Ht|]. split; [reflexivity|].
  apply mapM_Forall2 in Hrecords.
  induction Hrecords as [|signature record signatures records' Hrecord _ IH];
    constructor; [|exact IH].
  unfold serializeSignature in Hrecord.
  apply bind_Ok in Hrecord as (params & Hparams & [= <-]).
  split; [reflexivity|]. exists params. split; [reflexivity|].
  exact (serializeSymbol_names checker _ params Hparams).
Qed.

(** The class [Point] with the construct signatures [(x, y)] and [()]. *)
Lemma serializeClass_constructors_witness :
  exists entry records,
    @serializeClass Samples.typescript MoreSamples.point_checker
      MoreSamples.point_symbol = Ok entry
    /\ constructors entry = Some records
    /\ List.length records = 2%nat.
Proof.
  destruct (@serializeClass Samples.typescript MoreSamples.point_checker
              MoreSamples.point_symbol) as [entry|e] eqn:Hrun;
    [|vm_compute in Hrun; discriminate Hrun].
  destruct (@serializeClass_constructors Samples.typescript MoreSamples.point_checker
              MoreSamples.point_symbol entry Hrun)
    as (t & records & _ & Hconstructors & Hall).
  exists entry, records. split; [reflexivity|]. split; [exact Hconstructors|].
  apply Forall2_length in Hall. rewrite <- Hall. reflexivity.
Defined.

(** * Further properties of the renderer *)

Lemma append_associative (a b c : string) : (a ++ b) ++ c = a ++ (b ++ c).
Proof. induction a as [|ch a IH]; simpl; [reflexivity | rewrite IH; reflexivity]. Qed.

Lemma join_app (sep : string) (l1 l2 : list string) :
  l1 <> [] -> l2 <> [] ->
  join sep (l1 ++ l2)%list = join sep l1 ++ sep ++ join sep l2.
Proof.
  intros H1 H2. unfold join.
  induction l1 as [|x l1 IH]; [contradiction H1; reflexivity|].
  destruct l1 as [|y l1].
  - destruct l2 as [|z l2]; [contradiction H2; reflexivity | reflexivity].
  - change (String.concat sep ((x :: y :: l1) ++ l2)%list)
      with (x ++ sep ++ String.concat sep ((y :: l1) ++ l2)%list).
    rewrite IH by discriminate.
    change (String.concat sep (x :: y :: l1))
      with (x ++ sep ++ String.concat sep (y :: l1)).
    rewrite !append_associative. reflexivity.
Qed.

(** Rendering composes: the rendering of no entry is the empty string, that
    of one entry is its subsection, and that of two non-empty sequences put
    together is their renderings with one line feed between them. *)
Theorem toMarkdown_app :
  toMarkdown [] = ""
  /\ (forall entry, toMarkdown [entry] = join LF (subsection_spec entry))
  /\ (forall entries1 entries2,
         entries1 <> [] -> entries2 <> [] ->
         toMarkdown (entries1 ++ entries2)%list
         = toMarkdown entries1 ++ LF ++ toMarkdown entries2).
Proof.
  split; [reflexivity|]. split.
  - intros entry. exact (rowToMarkdown_subsection entry).
  - intros entries1 entries2 H1 H2. unfold toMarkdown. rewrite !map_app.
    apply join_app.
    + destruct entries1; [contradiction H1; reflexivity | discriminate].
    + destruct entries2; [contradiction H2; reflexivity | discriminate].
Qed.

Lemma toMarkdown_app_witness :
  toMarkdown [Samples.add_entry; Samples.pi_entry]
  = toMarkdown [Samples.add_entry] ++ LF ++ toMarkdown [Samples.pi_entry].
Proof.
  apply (proj2 (proj2 toMarkdown_app) [Samples.add_entry] [Samples.pi_entry]);
    discriminate.
Defined.

Lemma filter_implied {A : Type} (p q : A -> bool) (l : list A) :
  (forall a, p a = true -> q a = true) -> filter p (filter q l) = filter p l.
Proof.
  intros Himplies. induction l as [|a l IH]; simpl; [reflexivity|].
  destruct (q a) eqn:Hq; simpl.
  - rewrite IH. reflexivity.
  - destruct (p a) eqn:Hp; [|exact IH].
    rewrite (Himplies a Hp) in Hq. discriminate Hq.
Qed.

Lemma filter_excluded {A : Type} (p q : A -> bool) (l : list A) :
  (forall a, q a = true -> p a = false) -> filter p (filter q l) = [].
Proof.
  intros Hexcludes. induction l as [|a l IH]; simpl; [reflexivity|].
  destruct (q a) eqn:Hq; simpl; [|exact IH].
  rewrite (Hexcludes a Hq). exact IH.
Qed.

Lemma doc_type_is_other (tag tag' : string) (entry : DocEntry) :
  tag <> tag' -> doc_type_is tag entry = true -> doc_type_is tag' entry = false.
Proof.
  intros Hne H. apply doc_type_is_true in H.
  destruct (doc_type_is tag' entry) eqn:H'; [|reflexivity].
  apply doc_type_is_true in H'. congruence.
Qed.

Lemma documentationToMarkdown_groups (entries entries' : list DocEntry) :
  filter (doc_type_is "function") entries = filter (doc_type_is "function") entries' ->
  filter (doc_type_is "const") entries = filter (doc_type_is "const") entries' ->
  filter (doc_type_is "class") entries = filter (doc_type_is "class") entries' ->
  documentationToMarkdown entries = documentationToMarkdown entries'.
Proof.
  intros Hf Hk Hc. unfold documentationToMarkdown. rewrite Hf, Hk, Hc. reflexivity.
Qed.

(** The output depends on the entries only through the three groups.  Entries
    with another tag or with none are dropped, and entries of different groups
    may be given in any relative order: rendering the entries, rendering only the
    tagged ones, and rendering the function group followed by the const group
    followed by the class group give the same string. *)
Theorem documentationToMarkdown_regroup (entries : list DocEntry) :
  let functions := filter (doc_type_is "function") entries in
  let consts := filter (doc_type_is "const") entries in
  let classes := filter (doc_type_is "class") entries in
  documentationToMarkdown (filter tagged entries) = documentationToMarkdown entries
  /\ documentationToMarkdown (functions ++ consts ++ classes)%list
     = documentationToMarkdown entries
  /\ (forall entries',
         filter (doc_type_is "function") entries' = functions ->
         filter (doc_type_is "const") entries' = consts ->
         filter (doc_type_is "class") entries' = classes ->
         documentationToMarkdown entries' = documentationToMarkdown entries).
Proof.
  intros functions consts classes. split; [|split].
  - apply documentationToMarkdown_groups; apply filter_implied; intros entry H;
      unfold tagged; rewrite H; rewrite ?orb_true_r; reflexivity.
  - unfold functions, consts, classes.
    apply documentationToMarkdown_groups; rewrite !filter_app.
    + rewrite (filter_implied _ _ entries (fun _ H => H)).
      rewrite !(filter_excluded (doc_type_is "function"));
        [rewrite !app_nil_r; reflexivity | |];
        intros entry; apply doc_type_is_other; discriminate.
    + rewrite (filter_implied (doc_type_is "const") _ entries (fun _ H => H)).
      rewrite !(filter_excluded (doc_type_is "const"));
        [rewrite app_nil_r; reflexivity | |];
        intros entry; apply doc_type_is_other; discriminate.
    + rewrite (filter_implied (doc_type_is "class") _ entries (fun _ H => H)).
      rewrite !(filter_excluded (doc_type_is "class"));
        [reflexivity | |];
        intros entry; apply doc_type_is_other; discriminate.
  - intros entries' Hf Hk Hc. apply documentationToMarkdown_groups; assumption.
Qed.

(** The four sample entries, out of order and with an untagged one, render as
    the three tagged ones in group order. *)
Lemma documentationToMarkdown_regroup_witness :
  documentationToMarkdown [Samples.add_entry; Samples.pi_entry; Samples.C_entry]
  = documentationToMarkdown
      [Samples.C_entry; Samples.plain_entry; Samples.pi_entry; Samples.add_entry].
Proof.
  pose proof (documentationToMarkdown_regroup
                [Samples.C_entry; Samples.plain_entry; Samples.pi_entry;
                 Samples.add_entry]) as H.
  cbv zeta in H. exact (proj1 (proj2 H)).
Defined.

(** * The visibility gate, bit by bit *)

Lemma ToInt32_testbit (z i : Z) :
  (0 <= i < 32)%Z -> Z.testbit (ToInt32 z) i = Z.testbit z i.
Proof.
  intros Hi.
  rewrite <- (Z.mod_pow2_bits_low (ToInt32 z) 32 i) by lia.
  rewrite <- (Z.mod_pow2_bits_low z 32 i) by lia.
  f_equal. unfold ToInt32.
  rewrite (Z.mod_eq (z + 2 ^ 31) (2 ^ 32)) by lia.
  replace (z + 2 ^ 31 - 2 ^ 32 * ((z + 2 ^ 31) / 2 ^ 32) - 2 ^ 31)%Z
    with (z + - ((z + 2 ^ 31) / 2 ^ 32) * 2 ^ 32)%Z by lia.
  apply Z.mod_add. lia.
Qed.

Lemma ToInt32_small (z : Z) : (0 <= z < 2 ^ 31)%Z -> ToInt32 z = z.
Proof.
  intros Hz. unfold ToInt32. rewrite Z.mod_small; lia.
Qed.

Lemma land_single_bit (a e : Z) :
  (0 <= e)%Z -> Z.land a (2 ^ e) = if Z.testbit a e then (2 ^ e)%Z else 0%Z.
Proof.
  intros He. apply Z.bits_inj'. intros n Hn.
  rewrite Z.land_spec, Z.pow2_bits_eqb by exact He.
  destruct (Z.eqb_spec e n) as [<-|Hne].
  - rewrite andb_true_r. destruct (Z.testbit a e) eqn:Hbit.
    + rewrite Z.pow2_bits_eqb by exact He. rewrite Z.eqb_refl. reflexivity.
    + rewrite Z.bits_0. reflexivity.
  - rewrite andb_false_r. destruct (Z.testbit a e).
    + rewrite Z.pow2_bits_eqb by exact He.
      destruct (Z.eqb_spec e n); [contradiction | reflexivity].
    + rewrite Z.bits_0. reflexivity.
Qed.

Lemma bitwiseAnd_single_bit (flags e : Z) :
  (0 <= e < 31)%Z ->
  negb (bitwiseAnd flags (2 ^ e) =? 0)%Z = Z.testbit flags e.
Proof.
  intros He. unfold bitwiseAnd.
  assert (Hpow : (0 < 2 ^ e < 2 ^ 31)%Z).
  { split; [apply Z.pow_pos_nonneg; lia | apply Z.pow_lt_mono_r; lia]. }
  rewrite (ToInt32_small (2 ^ e)) by lia.
  rewrite land_single_bit by lia.
  rewrite ToInt32_testbit by lia.
  destruct (Z.testbit flags e).
  - destruct (Z.eqb_spec (2 ^ e) 0); [lia | reflexivity].
  - reflexivity.
Qed.

(** When [ModifierFlags.Export] and [ModifierFlags.Public] are single bits
    below the sign bit, a node passes the gate exactly when its combined flags
    have one of the two bits set; the other bits of the flags, and anything
    beyond 32 bits, play no part. *)
Theorem isNodeExportedOrPublic_bits {ts : TypeScript} (node : Node) (e p : Z) :
  (0 <= e < 31)%Z ->
  (0 <= p < 31)%Z ->
  ModifierFlags_Export = (2 ^ e)%Z ->
  ModifierFlags_Public = (2 ^ p)%Z ->
  isNodeExportedOrPublic node
  = Z.testbit (combinedModifierFlags node) e || Z.testbit (combinedModifierFlags node) p.
Proof.
  intros He Hp HE HP. unfold isNodeExportedOrPublic. cbv zeta.
  rewrite HE, HP, !bitwiseAnd_single_bit by assumption. reflexivity.
Qed.

(** With [Export = 1] and [Public = 4]: a node whose flags are 4 + 32 passes,
    one whose flags are 8 + 32 does not. *)
Lemma isNodeExportedOrPublic_bits_witness :
  @isNodeExportedOrPublic Samples.typescript
     (mkNode 1 MethodDeclaration 36 None None [] []) = true
  /\ @isNodeExportedOrPublic Samples.typescript
       (mkNode 1 MethodDeclaration 40 None None [] []) = false.
Proof.
  split.
  - rewrite (@isNodeExportedOrPublic_bits Samples.typescript _ 0 2);
      [reflexivity | lia | lia | reflexivity | reflexivity].
  - rewrite (@isNodeExportedOrPublic_bits Samples.typescript _ 0 2);
      [reflexivity | lia | lia | reflexivity | reflexivity].
Defined.
